(** * pyqrcode: the [QRCode] facade

    A shallow embedding of [pyqrcode/__init__.py]: the constructor of
    [QRCode] (error level check, content type detection, mode validation,
    version selection, call of the builder) and its [text] method.

    The module is Python 3.  A [str] is a sequence of Unicode code points,
    the object under construction is a record of optional attributes that
    the constructor fills in order, and an exception is a result of the
    computation. *)

From Stdlib Require Import ZArith NArith List String Ascii Bool Lia DecimalString.
Import ListNotations.
Open Scope Z_scope.

(** ** Python strings and values *)

(** A [str]: its code points, in order. *)
Definition pystr := list N.

(** A string literal of the source. *)
Definition lit (s : string) : pystr := map N_of_ascii (list_ascii_of_string s).

Definition pystr_eqb (s t : pystr) : bool :=
  if list_eq_dec N.eq_dec s t then true else false.

(** [len(s)] *)
Definition len {A : Type} (s : list A) : Z := Z.of_nat (List.length s).

(** [range(lo, hi)] *)
Definition range (lo hi : Z) : list Z :=
  map (fun i => lo + Z.of_nat i) (seq 0 (Z.to_nat (hi - lo))).

(** The values a caller passes to the constructor, and the objects a name of
    the module can be bound to. *)
Inductive pyval : Type :=
| PNone
| PInt (z : Z)
| PStr (s : pystr)
| PObject (name : string).

Definition pyval_eqb (a b : pyval) : bool :=
  match a, b with
  | PNone, PNone => true
  | PInt x, PInt y => x =? y
  | PStr s, PStr t => pystr_eqb s t
  | PObject m, PObject n => String.eqb m n
  | _, _ => false
  end.

(** [str(v)]: a string is itself, an integer its decimal numeral. *)
Definition str (v : pyval) : pystr :=
  match v with
  | PNone => lit "None"
  | PInt z => lit (NilZero.string_of_int (Z.to_int z))
  | PStr s => s
  | PObject name => lit name
  end.

(** ** Exceptions *)

(** Which of the two mode checks of the constructor refused the mode. *)
Inductive mismatch : Type :=
| only_binary (mode : pystr)   (* 'The content provided cannot be encoded with the mode {}, it can only be encoded as binary.' *)
| not_numeric.                 (* 'The content cannot be encoded as numeric.' *)

(** The exceptions of the module.  The first five are the [ValueError]s the
    facade and the builder raise, told apart by their message and named as
    the error kinds of the specification. *)
Inductive exn : Type :=
| InvalidErrorLevel                         (* 'The error parameter is not one of "L", "M", "Q", or "H."' *)
| ModeMismatch (why : mismatch)
| ContentTooLarge                           (* 'The data will not fit in any QR Code version ...' *)
| UserVersionTooSmall (version minimum : Z) (* 'The data will not fit inside a version {} code ...' *)
| UnimplementedMode
| NameError (name : string)
| KeyError
| TypeError
| AttributeError (attr : string)
| UnicodeEncodeError.

Inductive result (A : Type) : Type :=
| Ok (a : A)
| Raise (e : exn).
Arguments Ok {A} a.
Arguments Raise {A} e.

(** ** Builtins *)

Definition is_ascii (c : N) : bool := (c <? 128)%N.

(** [s.encode('ascii')]: one byte per code point, and [UnicodeEncodeError]
    at a code point above 127. *)
Definition encode_ascii (s : pystr) : result (list N) :=
  if forallb is_ascii s then Ok s else Raise UnicodeEncodeError.

Definition is_digit (c : N) : bool := ((48 <=? c) && (c <=? 57))%N.

Definition digits_value (s : pystr) : Z :=
  fold_left (fun acc c => 10 * acc + (Z.of_N c - 48)) s 0.

(** [int(v)]: an integer is itself; a string is read as a decimal numeral, a
    sign followed by digits (the surrounding blanks and the underscores
    [int] also allows are left out). *)
Definition int (v : pyval) : result Z :=
  match v with
  | PInt z => Ok z
  | PStr s =>
      let '(sign, digits) :=
        match s with
        | 45%N :: rest => (-1, rest)
        | 43%N :: rest => (1, rest)
        | _ => (1, s)
        end in
      match digits with
      | [] => Raise TypeError
      | _ => if forallb is_digit digits then Ok (sign * digits_value digits)
             else Raise TypeError
      end
  | _ => Raise TypeError
  end.

(** A dict, and [d[k]], which raises [KeyError] at a missing key. *)
Definition dict (K V : Type) := list (K * V).

Definition keys {K V : Type} (d : dict K V) : list K := map fst d.

Fixpoint getitem {K V : Type} (eqb : K -> K -> bool) (d : dict K V) (k : K)
  : result V :=
  match d with
  | [] => Raise KeyError
  | (k', v) :: rest => if eqb k' k then Ok v else getitem eqb rest k
  end.

(** [x in xs] *)
Definition contains (xs : list N) (x : N) : bool := existsb (N.eqb x) xs.

(** The case mappings of ASCII: [str.upper] and [str.lower] agree with them
    on a string of ASCII characters. *)
Definition ascii_upper (c : N) : N :=
  if ((97 <=? c) && (c <=? 122))%N then (c - 32)%N else c.

Definition ascii_lower (c : N) : N :=
  if ((65 <=? c) && (c <=? 90))%N then (c + 32)%N else c.

(** ** The static tables *)

Inductive ErrorLevel : Type := L | M | Q | H.

Module tables.

(** Modelled from the spec: [tables.error_level], of the module
    [pyqrcode.tables], whose source is missing here.  The aliases of the
    four levels: the letter in either case,
    the string holding the percentage, and the percentage as a number
    (the constructor's docstring lists the same three forms). *)
Definition error_level : dict pyval ErrorLevel :=
  [ (PStr (lit "L"), L); (PStr (lit "l"), L); (PStr (lit "7%"), L);  (PInt 7, L);
    (PStr (lit "M"), M); (PStr (lit "m"), M); (PStr (lit "15%"), M); (PInt 15, M);
    (PStr (lit "Q"), Q); (PStr (lit "q"), Q); (PStr (lit "25%"), Q); (PInt 25, Q);
    (PStr (lit "H"), H); (PStr (lit "h"), H); (PStr (lit "30%"), H); (PInt 30, H) ].

(** Modelled from the spec: [tables.modes], the mode indicators
    numeric=0001, alphanumeric=0010, binary=0100, kanji=1000. *)
Definition modes : dict pystr Z :=
  [ (lit "numeric", 1); (lit "alphanumeric", 2); (lit "binary", 4); (lit "kanji", 8) ].

(** Modelled from the spec: [tables.ascii_codes], the QR alphanumeric table:
    0-9, A-Z, space and [$ % * + - . / :], each with its code. *)
Definition ascii_codes : dict N Z :=
  combine (lit "0123456789ABCDEFGHIJKLMNOPQRSTUVWXYZ $%*+-./:")
          (map Z.of_nat (seq 0 45)).

End tables.

(** ** The object *)

(** The module matrix the builder produces: rows of modules, 1 for dark. *)
Definition matrix := list (list Z).

(** The builder object, as far as the facade reads it. *)
Record Builder : Type := mkBuilder { builder_code : matrix }.

(** [self]: the attributes of a [QRCode], unset until the constructor
    assigns them. *)
Record Self : Type := mkSelf {
  self_data : option pystr;
  self_error : option ErrorLevel;
  self_mode : option pystr;
  self_mode_num : option Z;
  self_version : option Z;
  self_builder : option Builder;
  self_code : option matrix
}.

(** The object before [__init__] runs. *)
Definition new : Self := mkSelf None None None None None None None.

(** ** Methods: state of [self] and exceptions *)

Definition Method (A : Type) : Type := Self -> result A * Self.

Definition ret {A : Type} (a : A) : Method A := fun self => (Ok a, self).

Definition raise {A : Type} (e : exn) : Method A := fun self => (Raise e, self).

Definition bind {A B : Type} (m : Method A) (k : A -> Method B) : Method B :=
  fun self =>
    match m self with
    | (Ok a, self') => k a self'
    | (Raise e, self') => (Raise e, self')
    end.

Declare Scope method_scope.
Delimit Scope method_scope with method.
Notation "x <- m ;; k" := (bind m (fun x => k))
  (at level 100, m at next level, right associativity) : method_scope.
Notation "m ;; k" := (bind m (fun _ => k))
  (at level 100, right associativity) : method_scope.
Open Scope method_scope.

(** An expression that may raise, evaluated inside a method. *)
Definition lift {A : Type} (r : result A) : Method A := fun self => (r, self).

(** [try: body / except: handler], with a bare [except]. *)
Definition try_except {A : Type} (body handler : Method A) : Method A :=
  fun self =>
    match body self with
    | (Ok a, self') => (Ok a, self')
    | (Raise _, self') => handler self'
    end.

(** [self.attr], read. *)
Definition getattr {A : Type} (field : Self -> option A) (attr : string)
  : Method A :=
  fun self =>
    match field self with
    | Some a => (Ok a, self)
    | None => (Raise (AttributeError attr), self)
    end.

Definition get_data := getattr self_data "data".
Definition get_error := getattr self_error "error".
Definition get_mode := getattr self_mode "mode".
Definition get_mode_num := getattr self_mode_num "mode_num".
Definition get_version := getattr self_version "version".
Definition get_builder := getattr self_builder "builder".
Definition get_code := getattr self_code "code".

(** [self.attr = v] *)
Definition set_data (v : pystr) : Method unit := fun s =>
  (Ok tt, mkSelf (Some v) (self_error s) (self_mode s) (self_mode_num s)
                 (self_version s) (self_builder s) (self_code s)).
Definition set_error (v : ErrorLevel) : Method unit := fun s =>
  (Ok tt, mkSelf (self_data s) (Some v) (self_mode s) (self_mode_num s)
                 (self_version s) (self_builder s) (self_code s)).
Definition set_mode (v : pystr) : Method unit := fun s =>
  (Ok tt, mkSelf (self_data s) (self_error s) (Some v) (self_mode_num s)
                 (self_version s) (self_builder s) (self_code s)).
Definition set_mode_num (v : Z) : Method unit := fun s =>
  (Ok tt, mkSelf (self_data s) (self_error s) (self_mode s) (Some v)
                 (self_version s) (self_builder s) (self_code s)).
Definition set_version (v : Z) : Method unit := fun s =>
  (Ok tt, mkSelf (self_data s) (self_error s) (self_mode s) (self_mode_num s)
                 (Some v) (self_builder s) (self_code s)).
Definition set_builder (v : Builder) : Method unit := fun s =>
  (Ok tt, mkSelf (self_data s) (self_error s) (self_mode s) (self_mode_num s)
                 (self_version s) (Some v) (self_code s)).
Definition set_code (v : matrix) : Method unit := fun s =>
  (Ok tt, mkSelf (self_data s) (self_error s) (self_mode s) (self_mode_num s)
                 (self_version s) (self_builder s) (Some v)).

(** ** Names *)

(** The names bound at module level: the package, its two submodules (an
    import of a submodule binds it in the package) and the class. *)
Definition module_globals : dict string pyval :=
  [ ("pyqrcode", PObject "pyqrcode"); ("tables", PObject "pyqrcode.tables");
    ("builder", PObject "pyqrcode.builder"); ("QRCode", PObject "QRCode") ]%string.

(** A name read in a function body: looked up in the locals of the call,
    then in the globals of the module; [NameError] when neither binds it
    (no builtin is called [content]). *)
Definition load_name (locals : dict string pyval) (name : string)
  : result pyval :=
  match getitem String.eqb (locals ++ module_globals) name with
  | Ok v => Ok v
  | Raise _ => Raise (NameError name)
  end.

(** Truth value of an optional string and of an optional integer:
    [None], the empty string and 0 are false. *)
Definition truthy_str (v : option pystr) : bool :=
  match v with Some (_ :: _) => true | _ => false end.

Definition truthy_int (v : option Z) : bool :=
  match v with Some z => negb (z =? 0) | None => false end.

(** ** The builder *)

Module builder.

(** Modelled from the spec: [builder._text], of the module
    [pyqrcode.builder], whose source is missing here.  "Text: returns an
    N-row string of 1/0 characters separated by newlines": a dark module (1)
    prints as 1, any other as 0. *)
Definition text_row (row : list Z) : pystr :=
  map (fun module => if module =? 1 then 49%N else 48%N) row.

Fixpoint _text (code : matrix) : pystr :=
  match code with
  | [] => []
  | [row] => text_row row
  | row :: rows => text_row row ++ 10%N :: _text rows
  end.

End builder.

(** ** Instances for the examples

    The constructor is stated below over the parts of Python and of the
    package that the source does not fix: the Unicode case mappings, the
    capacity table and the encoding pipeline of the builder.  The examples
    run it on these instances. *)

(** Case mappings that are those of Python on ASCII input. *)
Definition upper_ascii_only (s : pystr) : pystr := map ascii_upper s.
Definition lower_ascii_only (s : pystr) : pystr := map ascii_lower s.

(** A capacity table: its version 1 row is that of ISO/IEC 18004 (characters
    per error level and mode indicator); every later version holds the
    version 1 capacity once more. *)
Definition capacity_row1 (error : ErrorLevel) (mode_num : Z) : Z :=
  match error with
  | L => if mode_num =? 1 then 41 else if mode_num =? 2 then 25
         else if mode_num =? 4 then 17 else 10
  | M => if mode_num =? 1 then 34 else if mode_num =? 2 then 20
         else if mode_num =? 4 then 14 else 8
  | Q => if mode_num =? 1 then 27 else if mode_num =? 2 then 16
         else if mode_num =? 4 then 11 else 7
  | H => if mode_num =? 1 then 17 else if mode_num =? 2 then 10
         else if mode_num =? 4 then 7 else 4
  end.

Definition sample_capacity (version : Z) (error : ErrorLevel) (mode_num : Z) : Z :=
  version * capacity_row1 error mode_num.

(** A pipeline that accepts the versions 1 to 40 and yields the matrix of
    17 + 4 * version rows and columns with every module light. *)
Definition sample_build (data : pyval) (version : Z) (mode : pystr)
  (error : ErrorLevel) : result matrix :=
  if (1 <=? version) && (version <=? 40)
  then let n := Z.to_nat (17 + 4 * version) in Ok (repeat (repeat 0 n) n)
  else Raise KeyError.

(** A size function: the modules of the version and one more on each side,
    times an integer scale (31 and 155 for version 3 at the scales 1 and
    5, as in the docstring of [get_png_size]). *)
Definition sample_png_size (version : Z) (scale : pyval) : result pyval :=
  match scale with
  | PInt k => Ok (PInt ((17 + 4 * version + 2) * k))
  | _ => Raise TypeError
  end.

(** ** The size of the PNG *)

Section GetPngSize.

(** [builder._get_png_size(version, scale)], of the module
    [pyqrcode.builder]: the size it computes, or the exception it ends
    with. *)
Variable _get_png_size : Z -> pyval -> result pyval.

(** [QRCode.get_png_size(self, scale)]:
    [return builder._get_png_size(self.version, scale)] *)
Definition get_png_size (scale : pyval) : Method pyval :=
  self_version <- get_version ;;
  lift (_get_png_size self_version scale).

End GetPngSize.

(** * The class [QRCode] *)

Section QRCode.

(** [str.upper] and [str.lower]: the case mappings of Unicode. *)
Variables str_upper str_lower : pystr -> pystr.

(** [tables.data_capacity[version][error][mode_num]], total over the
    versions 1 to 40, the four levels and the four mode indicators. *)
Variable data_capacity : Z -> ErrorLevel -> Z -> Z.

(** What [builder.QRCodeBuilder] computes for a mode it implements: the
    module matrix, or the exception it ends with. *)
Variable build : pyval -> Z -> pystr -> ErrorLevel -> result matrix.

(** Modelled from the spec: [builder.QRCodeBuilder], of the module
    [pyqrcode.builder], whose source is missing here.  "Kanji fails with
    unimplemented"; for the other modes the builder object holds the matrix
    of the pipeline. *)
Definition QRCodeBuilder (data : pyval) (version : Z) (mode : pystr)
  (error : ErrorLevel) : result Builder :=
  if pystr_eqb mode (lit "kanji") then Raise UnimplementedMode
  else match build data version mode error with
       | Ok code => Ok (mkBuilder code)
       | Raise e => Raise e
       end.

(** The locals of a call of [_detect_content_type(self)]. *)
Definition _detect_content_type_locals : dict string pyval :=
  [ ("self"%string, PObject "self") ].

(** [QRCode._detect_content_type]: [try: test = int(content); return
    'numeric'] with a bare [except: pass], then the alphanumeric test
    [all(map(lambda x: x in valid_characters, self.data.upper()))]. *)
Definition _detect_content_type : Method pystr :=
  try_except
    (content <- lift (load_name _detect_content_type_locals "content") ;;
     test <- lift (int content) ;;
     ret (lit "numeric"))
    (data <- get_data ;;
     let valid_characters := keys tables.ascii_codes in
     if forallb (contains valid_characters) (str_upper data)
     then ret (lit "alphanumeric")
     else ret (lit "binary")).

(** The loop of [_pick_best_fit] over the versions still to try:
    [for version in range(1,41): ...], and the [raise] after it. *)
Fixpoint _pick_best_fit_from (versions : list Z) : Method Z :=
  match versions with
  | [] => raise ContentTooLarge
  | version :: later =>
      (* capacity = tables.data_capacity[version][self.error][self.mode_num] *)
      error <- get_error ;;
      mode_num <- get_mode_num ;;
      let capacity := data_capacity version error mode_num in
      (* if (self.mode_num == tables.modes['binary'] and
              capacity >= len(self.data.encode('ascii'))) or
             capacity >= len(self.data): return version *)
      binary <- lift (getitem pystr_eqb tables.modes (lit "binary")) ;;
      fits_encoded <-
        (if mode_num =? binary
         then data <- get_data ;;
              encoded <- lift (encode_ascii data) ;;
              ret (capacity >=? len encoded)
         else ret false) ;;
      fits <-
        (if fits_encoded then ret true
         else data <- get_data ;; ret (capacity >=? len data)) ;;
      if fits then ret version else _pick_best_fit_from later
  end.

(** [QRCode._pick_best_fit] *)
Definition _pick_best_fit : Method Z := _pick_best_fit_from (range 1 41).

(** The blocks of [QRCode.__init__], in the order of the source and under
    the comment that heads each of them there. *)

(** "Check that the passed in error level is valid":
    [try: self.error = tables.error_level[str(error).upper()]]
    [except: raise ValueError(...)] *)
Definition check_error_level (error : pyval) : Method unit :=
  try_except
    (level <- lift (getitem pyval_eqb tables.error_level
                      (PStr (str_upper (str error)))) ;;
     set_error level)
    (raise InvalidErrorLevel).

(** "Force a passed in mode to be lowercase":
    [if mode: mode = mode.lower()] *)
Definition lowercase_mode (mode : option pystr) : option pystr :=
  if truthy_str mode then option_map str_lower mode else mode.

(** "Check that the mode parameter is compatible with the contents": the
    [if not mode: ... elif ... elif ... else: ...] chain, on the lowercased
    mode. *)
Definition check_mode (guessed_content_type : pystr) (mode : option pystr)
  : Method unit :=
  if negb (truthy_str mode) then
    (* if not mode: use the guessed mode *)
    set_mode guessed_content_type ;;
    self_mode <- get_mode ;;
    mode_num <- lift (getitem pystr_eqb tables.modes self_mode) ;;
    set_mode_num mode_num
  else
    let mode := match mode with Some mode => mode | None => [] end in
    (* elif guessed_content_type == 'binary' and
            tables.modes[mode] != tables.modes['binary'] *)
    binary_only <-
      (if pystr_eqb guessed_content_type (lit "binary")
       then requested <- lift (getitem pystr_eqb tables.modes mode) ;;
            binary <- lift (getitem pystr_eqb tables.modes (lit "binary")) ;;
            ret (negb (requested =? binary))
       else ret false) ;;
    if binary_only then raise (ModeMismatch (only_binary mode))
    else
      (* elif tables.modes[mode] == tables.modes['numeric'] and
              guessed_content_type != 'numeric' *)
      numeric_refused <-
        (requested <- lift (getitem pystr_eqb tables.modes mode) ;;
         numeric <- lift (getitem pystr_eqb tables.modes (lit "numeric")) ;;
         if requested =? numeric
         then ret (negb (pystr_eqb guessed_content_type (lit "numeric")))
         else ret false) ;;
      if numeric_refused then raise (ModeMismatch not_numeric)
      else
        (* else: the data should encode with the passed in mode *)
        set_mode mode ;;
        self_mode <- get_mode ;;
        mode_num <- lift (getitem pystr_eqb tables.modes self_mode) ;;
        set_mode_num mode_num.

(** "If the user supplied a version, then check that it has sufficient data
    capacity for the contents passed in": [if version:] holds for an integer
    other than 0. *)
Definition check_version (version : option Z) : Method unit :=
  if truthy_int version then
    let version := match version with Some version => version | None => 0 end in
    self_version <- get_version ;;
    if version >=? self_version then set_version version
    else raise (UserVersionTooSmall version self_version)
  else ret tt.

(** "Build the QR Code" and "Save the code for easier reference". *)
Definition build_code (content : pyval) : Method unit :=
  self_version <- get_version ;;
  self_mode <- get_mode ;;
  self_error <- get_error ;;
  built <- lift (QRCodeBuilder content self_version self_mode self_error) ;;
  set_builder built ;;
  self_builder <- get_builder ;;
  set_code (builder_code self_builder).

(** [QRCode.__init__(self, content, error, version, mode)] *)
Definition __init__ (content error : pyval) (version : option Z)
  (mode : option pystr) : Method unit :=
  set_data (str content) ;;
  check_error_level error ;;
  guessed_content_type <- _detect_content_type ;;
  let mode := lowercase_mode mode in
  check_mode guessed_content_type mode ;;
  best <- _pick_best_fit ;;
  set_version best ;;
  check_version version ;;
  build_code content.

(** [QRCode.text(self)]: the body calls [builder._text] and ends without a
    [return], so the call evaluates to [None]. *)
Definition text : Method pyval :=
  self_code <- get_code ;;
  _ <- ret (builder._text self_code) ;;
  ret PNone.

(** The expression [QRCode(content, error, version, mode)]: a new object
    initialised by [__init__], or the exception [__init__] raises. *)
Definition QRCode (content error : pyval) (version : option Z)
  (mode : option pystr) : result Self :=
  match __init__ content error version mode new with
  | (Ok _, self) => Ok self
  | (Raise e, _) => Raise e
  end.

(** ** Notions the properties are stated with *)

(** What is known of [str.upper] and [str.lower]: on a string of ASCII
    characters they are the ASCII case mappings, character by character. *)
Definition agrees_on_ascii (f : pystr -> pystr) (g : N -> N) : Prop :=
  forall s, forallb is_ascii s = true -> f s = map g s.

(** The content type [_detect_content_type] answers for an object whose
    [data] is [str(content)]. *)
Definition detected_type (content : pyval) : result pystr :=
  fst (_detect_content_type
         (mkSelf (Some (str content)) None None None None None None)).

(** The payload length as the specification words it: "for binary mode the
    payload length is counted after UTF-8/ASCII byte encoding; for the other
    modes it is the character count", the encoding being the ASCII one of
    the code; 4 is the mode indicator of binary. *)
Definition payload_length (mode_num : Z) (data : pystr) : result Z :=
  if mode_num =? 4
  then match encode_ascii data with
       | Ok encoded => Ok (len encoded)
       | Raise e => Raise e
       end
  else Ok (len data).

(** "Every character (after uppercasing) is in the QR alphanumeric table." *)
Definition alphanumeric_only (data : pystr) : bool :=
  forallb (contains (keys tables.ascii_codes)) (str_upper data).

(** The minimum version the constructor computes: the version of the object
    it leaves when the caller gives none. *)
Definition computed_minimum (content error : pyval) (mode : option pystr)
  : option Z :=
  self_version (snd (__init__ content error None mode new)).

(** The ASCII characters that pass the alphanumeric test of
    [_detect_content_type]: the digits, the letters in either case, the
    space and [$ % * + - . / :]. *)
Definition passes_alphanumeric_test (c : N) : bool :=
  (is_digit c || ((65 <=? c) && (c <=? 90)) || ((97 <=? c) && (c <=? 122))
   || (c =? 32) || contains (lit "$%*+-./:") c)%N.

(** The mode check accepts the mode [m], of indicator [n], for the content:
    on the object the constructor has when it reaches the check, whatever
    the detection answered, [check_mode] raises nothing and stores [m] and
    [n]; the constructor then runs as the blocks after the check run on that
    object, so it ends with a mode mismatch only if the builder raises one;
    and [m] and [n] are the mode and the indicator of the object the
    constructor leaves. *)
Definition mode_accepted (content error : pyval) (version : option Z)
  (mode : option pystr) (level : ErrorLevel) (m : pystr) (n : Z) : Prop :=
  let checked :=
    mkSelf (Some (str content)) (Some level) (Some m) (Some n) None None None in
  (forall guessed,
      detected_type content = Ok guessed ->
      check_mode guessed (lowercase_mode mode)
        (mkSelf (Some (str content)) (Some level) None None None None None)
      = (Ok tt, checked)) /\
  __init__ content error version mode new =
    (best <- _pick_best_fit ;;
     set_version best ;;
     check_version version ;;
     build_code content) checked /\
  ((forall v why, QRCodeBuilder content v m level <> Raise (ModeMismatch why)) ->
   forall why, QRCode content error version mode <> Raise (ModeMismatch why)) /\
  self_mode (snd (__init__ content error version mode new)) = Some m /\
  self_mode_num (snd (__init__ content error version mode new)) = Some n.

(** * Properties *)

Hypothesis str_upper_ascii : agrees_on_ascii str_upper ascii_upper.
Hypothesis str_lower_ascii : agrees_on_ascii str_lower ascii_lower.

(** ** Running a method *)

Lemma bind_run {A B : Type} (m : Method A) (k : A -> Method B) (s : Self) :
  bind m k s =
  match m s with
  | (Ok a, s') => k a s'
  | (Raise e, s') => (Raise e, s')
  end.
Proof. reflexivity. Qed.

Lemma pystr_eqb_eq (s t : pystr) : pystr_eqb s t = true <-> s = t.
Proof.
  unfold pystr_eqb. destruct (list_eq_dec N.eq_dec s t); split; congruence.
Qed.

Lemma pystr_eqb_refl (s : pystr) : pystr_eqb s s = true.
Proof. apply pystr_eqb_eq. reflexivity. Qed.

(** Reduction of the plumbing of a method, leaving the builtins, the tables
    and the methods of the class folded. *)
Ltac run :=
  cbv beta iota delta
    [bind ret raise lift try_except getattr
     get_data get_error get_mode get_mode_num get_version get_builder get_code
     set_data set_error set_mode set_mode_num set_version set_builder set_code];
  cbn [self_data self_error self_mode self_mode_num self_version self_builder
       self_code fst snd].

(** One step of a run: the outcome [H] of the expression in head position,
    then the plumbing up to the next one. *)
Ltac step H := rewrite H; run.

(** Reduction of the attributes of an object given by its fields. *)
Ltac fields :=
  cbn [self_data self_error self_mode self_mode_num self_version
       self_builder self_code fst snd].

(** ** Content type detection *)

(** The name [content] is bound neither in the method nor in the module. *)
Lemma content_is_unbound :
  load_name _detect_content_type_locals "content" = Raise (NameError "content").
Proof. reflexivity. Qed.

(** The [try] block always ends in the [except] branch, so the answer is
    decided by the alphanumeric test alone. *)
Lemma detect_run (s : Self) (data : pystr) :
  self_data s = Some data ->
  _detect_content_type s =
  (Ok (if forallb (contains (keys tables.ascii_codes)) (str_upper data)
       then lit "alphanumeric" else lit "binary"), s).
Proof.
  intros Hdata. unfold _detect_content_type. run.
  rewrite content_is_unbound. run. rewrite Hdata.
  destruct (forallb _ _); reflexivity.
Qed.

Lemma detect_unset (s : Self) :
  self_data s = None ->
  _detect_content_type s = (Raise (AttributeError "data"), s).
Proof.
  intros Hdata. unfold _detect_content_type. run.
  rewrite content_is_unbound. run. rewrite Hdata. reflexivity.
Qed.

(** No object makes the detection answer 'numeric'. *)
Lemma detect_never_numeric (s : Self) :
  fst (_detect_content_type s) <> Ok (lit "numeric").
Proof.
  destruct (self_data s) as [data|] eqn:Hdata.
  - rewrite (detect_run s data Hdata). cbn [fst].
    destruct (forallb _ _); discriminate.
  - rewrite (detect_unset s Hdata). discriminate.
Qed.

(** ** Version selection *)

Lemma modes_binary : getitem pystr_eqb tables.modes (lit "binary") = Ok 4.
Proof. reflexivity. Qed.

Lemma encode_ascii_len (data encoded : pystr) :
  encode_ascii data = Ok encoded -> len encoded = len data.
Proof.
  unfold encode_ascii. destruct (forallb is_ascii data); congruence.
Qed.

(** The loop leaves the object as it found it. *)
Lemma pick_from_state (versions : list Z) (s : Self) :
  snd (_pick_best_fit_from versions s) = s.
Proof.
  induction versions as [|version later IH]; [reflexivity|].
  cbn [_pick_best_fit_from]. run.
  destruct (self_error s) as [e|]; run; [|reflexivity].
  destruct (self_mode_num s) as [n|]; run; [|reflexivity].
  step modes_binary.
  destruct (n =? 4); run.
  - destruct (self_data s) as [d|] eqn:Hd; run; [|reflexivity].
    destruct (encode_ascii d) as [encoded|ex]; run; [|reflexivity].
    destruct (data_capacity version e n >=? len encoded); run; [reflexivity|].
    step Hd.
    destruct (data_capacity version e n >=? len d); [reflexivity|apply IH].
  - destruct (self_data s) as [d|]; run; [|reflexivity].
    destruct (data_capacity version e n >=? len d); [reflexivity|apply IH].
Qed.

(** With a payload length, the loop answers the first version of the list
    whose capacity reaches it. *)
Lemma pick_from_run (versions : list Z) (s : Self) (d : pystr)
  (e : ErrorLevel) (n size : Z) :
  self_data s = Some d -> self_error s = Some e -> self_mode_num s = Some n ->
  payload_length n d = Ok size ->
  _pick_best_fit_from versions s =
  (match find (fun v => data_capacity v e n >=? size) versions with
   | Some v => Ok v
   | None => Raise ContentTooLarge
   end, s).
Proof.
  intros Hd He Hn Hsize.
  assert (Hlen : size = len d).
  { unfold payload_length in Hsize. destruct (n =? 4).
    - destruct (encode_ascii d) as [encoded|] eqn:E; [|discriminate].
      apply encode_ascii_len in E. congruence.
    - congruence. }
  induction versions as [|version later IH]; [reflexivity|].
  cbn [_pick_best_fit_from find]. run. step He. step Hn. step modes_binary.
  unfold payload_length in Hsize.
  destruct (n =? 4); run.
  - step Hd. destruct (encode_ascii d) as [encoded|] eqn:E; [|discriminate].
    run. injection Hsize as Hsize. rewrite Hsize.
    destruct (data_capacity version e n >=? size) eqn:Hfits; run;
      [reflexivity|].
    step Hd. rewrite <- Hlen, Hfits. apply IH.
  - step Hd. rewrite <- Hlen.
    destruct (data_capacity version e n >=? size); [reflexivity|apply IH].
Qed.

(** In binary mode a character outside ASCII stops the loop at its first
    version. *)
Lemma pick_from_not_ascii (version : Z) (later : list Z) (s : Self)
  (d : pystr) (e : ErrorLevel) :
  self_data s = Some d -> self_error s = Some e -> self_mode_num s = Some 4 ->
  forallb is_ascii d = false ->
  _pick_best_fit_from (version :: later) s = (Raise UnicodeEncodeError, s).
Proof.
  intros Hd He Hn Hascii.
  cbn [_pick_best_fit_from]. run. step He. step Hn. step modes_binary.
  cbn [Z.eqb Pos.eqb]. step Hd. unfold encode_ascii. rewrite Hascii.
  reflexivity.
Qed.

Lemma range_cons (lo hi : Z) :
  lo < hi -> range lo hi = lo :: range (lo + 1) hi.
Proof.
  intros Hlt. unfold range.
  replace (Z.to_nat (hi - lo)) with (S (Z.to_nat (hi - (lo + 1)))) by lia.
  cbn [seq map]. f_equal; [lia|].
  rewrite <- seq_shift, map_map. apply map_ext. intros i. lia.
Qed.

Lemma range_nil (lo hi : Z) : hi <= lo -> range lo hi = [].
Proof.
  intros Hle. unfold range. replace (Z.to_nat (hi - lo)) with 0%nat by lia.
  reflexivity.
Qed.

(** [find] over a range answers its least element that passes the test. *)
Lemma find_range (f : Z -> bool) (count : nat) (lo hi : Z) :
  hi - lo = Z.of_nat count ->
  match find f (range lo hi) with
  | Some v => lo <= v < hi /\ f v = true /\ forall u, lo <= u < v -> f u = false
  | None => forall u, lo <= u < hi -> f u = false
  end.
Proof.
  revert lo. induction count as [|count IH]; intros lo Hcount.
  - rewrite range_nil by lia. cbn [find]. intros u Hu. lia.
  - rewrite range_cons by lia. cbn [find].
    destruct (f lo) eqn:Hlo.
    + split; [lia|]. split; [assumption|]. intros u Hu. lia.
    + specialize (IH (lo + 1) ltac:(lia)).
      destruct (find f (range (lo + 1) hi)) as [v|].
      * destruct IH as (Hv & Hfv & Hmin). split; [lia|]. split; [assumption|].
        intros u Hu. destruct (Z.eq_dec u lo) as [->|Hne]; [assumption|].
        apply Hmin. lia.
      * intros u Hu. destruct (Z.eq_dec u lo) as [->|Hne]; [assumption|].
        apply IH. lia.
Qed.

(** ** The blocks of the constructor *)

Lemma check_error_level_run (error : pyval) (s : Self) :
  check_error_level error s =
  match getitem pyval_eqb tables.error_level (PStr (str_upper (str error))) with
  | Ok level =>
      (Ok tt, mkSelf (self_data s) (Some level) (self_mode s) (self_mode_num s)
                     (self_version s) (self_builder s) (self_code s))
  | Raise _ => (Raise InvalidErrorLevel, s)
  end.
Proof.
  unfold check_error_level. run. destruct (getitem _ _ _); reflexivity.
Qed.

Lemma modes_numeric : getitem pystr_eqb tables.modes (lit "numeric") = Ok 1.
Proof. reflexivity. Qed.

Lemma modes_alphanumeric :
  getitem pystr_eqb tables.modes (lit "alphanumeric") = Ok 2.
Proof. reflexivity. Qed.

Lemma modes_kanji : getitem pystr_eqb tables.modes (lit "kanji") = Ok 8.
Proof. reflexivity. Qed.

(** The keys of [tables.modes] and their indicators. *)
Lemma modes_inv (mode : pystr) (n : Z) :
  getitem pystr_eqb tables.modes mode = Ok n ->
  (mode = lit "numeric" /\ n = 1) \/ (mode = lit "alphanumeric" /\ n = 2) \/
  (mode = lit "binary" /\ n = 4) \/ (mode = lit "kanji" /\ n = 8).
Proof.
  unfold tables.modes. cbn [getitem].
  repeat match goal with
  | |- context [pystr_eqb ?k mode] =>
      let E := fresh "E" in
      destruct (pystr_eqb k mode) eqn:E;
      [apply pystr_eqb_eq in E; intros [= <-]; subst mode; tauto|]
  end.
  discriminate.
Qed.

Lemma modes_missing (mode : pystr) (e : exn) :
  getitem pystr_eqb tables.modes mode = Raise e -> e = KeyError.
Proof.
  unfold tables.modes. cbn [getitem].
  repeat match goal with
  | |- context [pystr_eqb ?k mode] => destruct (pystr_eqb k mode); [discriminate|]
  end.
  congruence.
Qed.

(** No mode given: the guessed mode is used. *)
Lemma check_mode_guessed (guessed : pystr) (mode : option pystr) (n : Z)
  (s : Self) :
  truthy_str mode = false ->
  getitem pystr_eqb tables.modes guessed = Ok n ->
  check_mode guessed mode s =
  (Ok tt, mkSelf (self_data s) (self_error s) (Some guessed) (Some n)
                 (self_version s) (self_builder s) (self_code s)).
Proof.
  intros Hfalsy Hn. unfold check_mode. rewrite Hfalsy. cbn [negb]. run.
  step Hn. reflexivity.
Qed.

(** A mode given and known to [tables.modes]: the two refusals, in the order
    of the source, and the acceptance. *)
Lemma check_mode_requested (guessed mode : pystr) (n : Z) (s : Self) :
  truthy_str (Some mode) = true ->
  getitem pystr_eqb tables.modes mode = Ok n ->
  check_mode guessed (Some mode) s =
  if pystr_eqb guessed (lit "binary") && negb (n =? 4)
  then (Raise (ModeMismatch (only_binary mode)), s)
  else if (n =? 1) && negb (pystr_eqb guessed (lit "numeric"))
  then (Raise (ModeMismatch not_numeric), s)
  else (Ok tt, mkSelf (self_data s) (self_error s) (Some mode) (Some n)
                      (self_version s) (self_builder s) (self_code s)).
Proof.
  intros Htruthy Hn. unfold check_mode. rewrite Htruthy. cbn [negb]. run.
  rewrite Hn, modes_binary, modes_numeric.
  destruct (pystr_eqb guessed (lit "binary")), (n =? 4), (n =? 1),
    (pystr_eqb guessed (lit "numeric")); reflexivity.
Qed.

(** A mode given that [tables.modes] does not know. *)
Lemma check_mode_unknown (guessed mode : pystr) (e : exn) (s : Self) :
  truthy_str (Some mode) = true ->
  getitem pystr_eqb tables.modes mode = Raise e ->
  check_mode guessed (Some mode) s = (Raise KeyError, s).
Proof.
  intros Htruthy Hn. unfold check_mode. rewrite Htruthy. cbn [negb]. run.
  apply modes_missing in Hn as He. subst e. rewrite Hn.
  destruct (pystr_eqb guessed (lit "binary")); reflexivity.
Qed.

(** The mode check writes [mode] and [mode_num] and nothing else. *)
Lemma check_mode_frame (guessed : pystr) (mode : option pystr) (s : Self) :
  let s' := snd (check_mode guessed mode s) in
  self_data s' = self_data s /\ self_error s' = self_error s /\
  self_version s' = self_version s.
Proof.
  destruct (truthy_str mode) eqn:Htruthy.
  - destruct mode as [mode|]; [|discriminate].
    destruct (getitem pystr_eqb tables.modes mode) as [n|e] eqn:Hn.
    + rewrite (check_mode_requested guessed mode n s Htruthy Hn).
      destruct (_ && _); [cbn; tauto|]. destruct (_ && _); cbn; tauto.
    + rewrite (check_mode_unknown guessed mode e s Htruthy Hn). cbn. tauto.
  - unfold check_mode. rewrite Htruthy. cbn [negb]. run.
    destruct (getitem pystr_eqb tables.modes guessed); cbn; tauto.
Qed.

Lemma check_version_run (version : option Z) (s : Self) (best : Z) :
  self_version s = Some best ->
  check_version version s =
  match version with
  | Some v =>
      if v =? 0 then (Ok tt, s)
      else if v >=? best
      then (Ok tt, mkSelf (self_data s) (self_error s) (self_mode s)
                          (self_mode_num s) (Some v) (self_builder s)
                          (self_code s))
      else (Raise (UserVersionTooSmall v best), s)
  | None => (Ok tt, s)
  end.
Proof.
  intros Hbest. unfold check_version, truthy_int.
  destruct version as [v|]; [|reflexivity].
  destruct (v =? 0); cbn [negb]; run; [reflexivity|].
  step Hbest. destruct (v >=? best); reflexivity.
Qed.

Lemma build_code_run (content : pyval) (s : Self) (v : Z) (m : pystr)
  (e : ErrorLevel) :
  self_version s = Some v -> self_mode s = Some m -> self_error s = Some e ->
  build_code content s =
  match QRCodeBuilder content v m e with
  | Ok built =>
      (Ok tt, mkSelf (self_data s) (self_error s) (self_mode s)
                     (self_mode_num s) (self_version s) (Some built)
                     (Some (builder_code built)))
  | Raise ex => (Raise ex, s)
  end.
Proof.
  intros Hv Hm He. unfold build_code. run. step Hv. step Hm. step He.
  destruct (QRCodeBuilder content v m e); run; rewrite ?Hv, ?Hm, ?He;
    reflexivity.
Qed.

Lemma pick_state (s : Self) : snd (_pick_best_fit s) = s.
Proof. apply pick_from_state. Qed.

(** ** The constructor, block by block *)

Lemma detected_type_run (content : pyval) :
  detected_type content =
  Ok (if alphanumeric_only (str content)
      then lit "alphanumeric" else lit "binary").
Proof.
  unfold detected_type. rewrite (detect_run _ (str content)); reflexivity.
Qed.

(** The run of [__init__] on a new object. *)
Lemma init_run (content error : pyval) (version : option Z)
  (mode : option pystr) :
  __init__ content error version mode new =
  match getitem pyval_eqb tables.error_level (PStr (str_upper (str error))) with
  | Raise _ =>
      (Raise InvalidErrorLevel,
       mkSelf (Some (str content)) None None None None None None)
  | Ok level =>
      let guessed := if alphanumeric_only (str content)
                     then lit "alphanumeric" else lit "binary" in
      match check_mode guessed (lowercase_mode mode)
              (mkSelf (Some (str content)) (Some level) None None None None None)
      with
      | (Raise ex, s) => (Raise ex, s)
      | (Ok _, s) =>
          match fst (_pick_best_fit s) with
          | Raise ex => (Raise ex, s)
          | Ok best =>
              (check_version version ;; build_code content)
                (mkSelf (self_data s) (self_error s) (self_mode s)
                        (self_mode_num s) (Some best) (self_builder s)
                        (self_code s))
          end
      end
  end.
Proof.
  unfold __init__. rewrite bind_run. cbn [set_data new self_error self_mode
    self_mode_num self_version self_builder self_code].
  rewrite bind_run, check_error_level_run.
  destruct (getitem pyval_eqb tables.error_level _) as [level|]; [|reflexivity].
  cbn [self_data self_error self_mode self_mode_num self_version self_builder
       self_code].
  rewrite bind_run, (detect_run _ (str content)) by reflexivity.
  fold (alphanumeric_only (str content)). cbv zeta.
  rewrite bind_run.
  destruct (check_mode _ _ _) as [[[]|ex] s]; [|reflexivity].
  rewrite bind_run.
  pose proof (pick_state s) as Hstate.
  destruct (_pick_best_fit s) as [[best|ex] s']; cbn [fst snd] in *; subst s';
    reflexivity.
Qed.

(** What the mode check leaves when it raises nothing: the mode [m] it
    stored, a key of [tables.modes], next to its indicator [n]. *)
Lemma check_mode_ok (guessed : pystr) (mode : option pystr) (s s' : Self) :
  check_mode guessed mode s = (Ok tt, s') ->
  exists m n,
    getitem pystr_eqb tables.modes m = Ok n /\
    (if truthy_str mode then mode = Some m else m = guessed) /\
    s' = mkSelf (self_data s) (self_error s) (Some m) (Some n)
                (self_version s) (self_builder s) (self_code s).
Proof.
  intros Hrun. destruct (truthy_str mode) eqn:Htruthy.
  - destruct mode as [mode|]; [|discriminate].
    destruct (getitem pystr_eqb tables.modes mode) as [n|e] eqn:Hn.
    + rewrite (check_mode_requested guessed mode n s Htruthy Hn) in Hrun.
      destruct (_ && _); [discriminate|]. destruct (_ && _); [discriminate|].
      injection Hrun as <-. exists mode, n. auto.
    + rewrite (check_mode_unknown guessed mode e s Htruthy Hn) in Hrun.
      discriminate.
  - destruct (getitem pystr_eqb tables.modes guessed) as [n|e] eqn:Hn.
    + rewrite (check_mode_guessed guessed mode n s Htruthy Hn) in Hrun.
      injection Hrun as <-. exists guessed, n. auto.
    + revert Hrun. unfold check_mode. rewrite Htruthy. cbn [negb]. run.
      rewrite Hn. discriminate.
Qed.

(** The constructor past the version selection: the version check and the
    call of the builder, on the object as the first blocks leave it. *)
Lemma init_tail (content : pyval) (version : option Z) (data m : pystr)
  (level : ErrorLevel) (n best : Z) :
  (check_version version ;; build_code content)
    (mkSelf (Some data) (Some level) (Some m) (Some n) (Some best) None None) =
  let built (v : Z) :=
    match QRCodeBuilder content v m level with
    | Ok b =>
        (Ok tt, mkSelf (Some data) (Some level) (Some m) (Some n) (Some v)
                       (Some b) (Some (builder_code b)))
    | Raise ex =>
        (Raise ex,
         mkSelf (Some data) (Some level) (Some m) (Some n) (Some v) None None)
    end in
  match version with
  | Some v =>
      if v =? 0 then built best
      else if v >=? best then built v
      else (Raise (UserVersionTooSmall v best),
            mkSelf (Some data) (Some level) (Some m) (Some n) (Some best)
                   None None)
  | None => built best
  end.
Proof.
  rewrite bind_run, (check_version_run version _ best) by reflexivity.
  cbv zeta.
  destruct version as [v|].
  - destruct (v =? 0).
    + rewrite (build_code_run content _ best m level) by reflexivity.
      destruct (QRCodeBuilder _ _ _ _); reflexivity.
    + destruct (v >=? best); [|reflexivity].
      rewrite (build_code_run content _ v m level) by reflexivity.
      destruct (QRCodeBuilder _ _ _ _); reflexivity.
  - rewrite (build_code_run content _ best m level) by reflexivity.
    destruct (QRCodeBuilder _ _ _ _); reflexivity.
Qed.

(** A computed minimum tells how the first blocks of the constructor went:
    the error level was valid, the mode check stored a mode [m] with its
    indicator [n], the version selection answered the minimum, and the rest
    of the constructor, whatever version the caller gives, is the version
    check and the call of the builder. *)
Lemma computed_minimum_inv (content error : pyval) (mode : option pystr)
  (minimum : Z) :
  computed_minimum content error mode = Some minimum ->
  exists level m n,
    getitem pyval_eqb tables.error_level (PStr (str_upper (str error)))
      = Ok level /\
    getitem pystr_eqb tables.modes m = Ok n /\
    (if truthy_str (lowercase_mode mode) then lowercase_mode mode = Some m
     else detected_type content = Ok m) /\
    _pick_best_fit
      (mkSelf (Some (str content)) (Some level) (Some m) (Some n)
              None None None)
      = (Ok minimum,
         mkSelf (Some (str content)) (Some level) (Some m) (Some n)
                None None None) /\
    forall version,
      __init__ content error version mode new =
      (check_version version ;; build_code content)
        (mkSelf (Some (str content)) (Some level) (Some m) (Some n)
                (Some minimum) None None).
Proof.
  unfold computed_minimum. intros Hmin.
  assert (Hinit := fun version => init_run content error version mode).
  rewrite (Hinit None) in Hmin.
  destruct (getitem pyval_eqb tables.error_level _) as [level|];
    [|discriminate].
  cbv zeta in Hmin, Hinit.
  pose proof (check_mode_frame
                (if alphanumeric_only (str content)
                 then lit "alphanumeric" else lit "binary")
                (lowercase_mode mode)
                (mkSelf (Some (str content)) (Some level) None None None
                        None None)) as Hframe.
  destruct (check_mode _ _ _) as [[[]|ex] s] eqn:Hmode.
  - apply check_mode_ok in Hmode as (m & n & Hn & Hm & ->). clear Hframe.
    cbn [self_data self_error self_mode self_mode_num self_version
         self_builder self_code] in Hmin, Hinit.
    pose proof (pick_state
                  (mkSelf (Some (str content)) (Some level) (Some m) (Some n)
                          None None None)) as Hstate.
    destruct (_pick_best_fit
                (mkSelf (Some (str content)) (Some level) (Some m) (Some n)
                        None None None)) as [[best|ex] s'] eqn:Hpick;
      cbn [fst snd] in *; subst s'; [|discriminate].
    rewrite init_tail in Hmin. cbv beta zeta in Hmin.
    assert (best = minimum) as ->.
    { destruct (QRCodeBuilder _ _ _ _); cbn [snd self_version] in Hmin;
        congruence. }
    exists level, m, n. repeat split; try assumption.
    rewrite detected_type_run. destruct (truthy_str _); congruence.
  - cbn [snd] in Hframe, Hmin. destruct Hframe as (_ & _ & Hversion).
    rewrite Hversion in Hmin. discriminate.
Qed.

(** The version selection answers a version between 1 and 40. *)
Lemma pick_in_range (s : Self) (best : Z) :
  fst (_pick_best_fit s) = Ok best -> 1 <= best <= 40.
Proof.
  unfold _pick_best_fit.
  assert (Hin : forall versions,
             fst (_pick_best_fit_from versions s) = Ok best ->
             In best versions).
  { induction versions as [|version later IH]; [discriminate|].
    cbn [_pick_best_fit_from]. run.
    destruct (self_error s) as [e|]; run; [|discriminate].
    destruct (self_mode_num s) as [n|]; run; [|discriminate].
    rewrite modes_binary. run.
    destruct (self_data s) as [d|] eqn:Hd;
      [|destruct (n =? 4); run; rewrite ?Hd; run; discriminate].
    destruct (n =? 4); run; rewrite Hd; run.
    - destruct (encode_ascii d); run; [|discriminate].
      destruct (_ >=? _); run.
      + intros [= ->]. left. reflexivity.
      + rewrite Hd. run. destruct (_ >=? _).
        * intros [= ->]. left. reflexivity.
        * intros Hlater. right. apply IH, Hlater.
    - destruct (_ >=? _).
      + intros [= ->]. left. reflexivity.
      + intros Hlater. right. apply IH, Hlater. }
  intros Hbest. apply Hin in Hbest. unfold range in Hbest.
  apply in_map_iff in Hbest as (i & <- & Hi). apply in_seq in Hi.
  change (Z.to_nat (41 - 1)) with 40%nat in Hi. lia.
Qed.

(** The mode the mode check stores is the mode of the object the constructor
    leaves, whether it then succeeds or raises. *)
Lemma init_mode_stored (content error : pyval) (version : option Z)
  (mode : option pystr) (level : ErrorLevel) (m : pystr) (n : Z) :
  getitem pyval_eqb tables.error_level (PStr (str_upper (str error)))
    = Ok level ->
  check_mode (if alphanumeric_only (str content)
              then lit "alphanumeric" else lit "binary")
    (lowercase_mode mode)
    (mkSelf (Some (str content)) (Some level) None None None None None)
    = (Ok tt, mkSelf (Some (str content)) (Some level) (Some m) (Some n)
                     None None None) ->
  let self := snd (__init__ content error version mode new) in
  self_mode self = Some m /\ self_mode_num self = Some n.
Proof.
  intros Herr Hmode. rewrite init_run, Herr. cbv zeta. rewrite Hmode.
  cbn [self_data self_error self_mode self_mode_num self_version
       self_builder self_code].
  destruct (fst (_pick_best_fit _)) as [best|ex]; [|cbn; tauto].
  rewrite init_tail. cbv beta zeta.
  destruct version as [v|].
  - destruct (v =? 0); [destruct (QRCodeBuilder _ _ _ _); cbn; tauto|].
    destruct (v >=? best); [|cbn; tauto].
    destruct (QRCodeBuilder _ _ _ _); cbn; tauto.
  - destruct (QRCodeBuilder _ _ _ _); cbn; tauto.
Qed.

Lemma error_level_H :
  getitem pyval_eqb tables.error_level (PStr (str_upper (lit "H"))) = Ok H.
Proof. rewrite str_upper_ascii by reflexivity. reflexivity. Qed.

Lemma pick_run (s : Self) (d : pystr) (e : ErrorLevel) (n size : Z) :
  self_data s = Some d -> self_error s = Some e -> self_mode_num s = Some n ->
  payload_length n d = Ok size ->
  _pick_best_fit s =
  (match find (fun v => data_capacity v e n >=? size) (range 1 41) with
   | Some v => Ok v
   | None => Raise ContentTooLarge
   end, s).
Proof. apply pick_from_run. Qed.

Lemma minimum_in_range (content error : pyval) (mode : option pystr)
  (minimum : Z) :
  computed_minimum content error mode = Some minimum -> 1 <= minimum <= 40.
Proof.
  intros Hmin. apply computed_minimum_inv in Hmin
    as (level & m & n & _ & _ & _ & Hpick & _).
  apply (pick_in_range
           (mkSelf (Some (str content)) (Some level) (Some m) (Some n)
                   None None None)).
  rewrite Hpick. reflexivity.
Qed.

(** A version the caller gives, other than 0 and at least the computed
    minimum: the constructor calls the builder with it, and its outcome is
    the outcome of the builder. *)
Lemma init_accepts_version (content error : pyval) (mode : option pystr)
  (v minimum : Z) :
  computed_minimum content error mode = Some minimum ->
  v <> 0 -> v >= minimum ->
  exists level m n,
    getitem pyval_eqb tables.error_level (PStr (str_upper (str error)))
      = Ok level /\
    (if truthy_str (lowercase_mode mode) then lowercase_mode mode = Some m
     else detected_type content = Ok m) /\
    __init__ content error (Some v) mode new =
    match QRCodeBuilder content v m level with
    | Ok b =>
        (Ok tt, mkSelf (Some (str content)) (Some level) (Some m) (Some n)
                       (Some v) (Some b) (Some (builder_code b)))
    | Raise ex =>
        (Raise ex, mkSelf (Some (str content)) (Some level) (Some m) (Some n)
                          (Some v) None None)
    end.
Proof.
  intros Hmin Hv Hge. apply computed_minimum_inv in Hmin
    as (level & m & n & Herr & _ & Hm & _ & Hinit).
  exists level, m, n. split; [assumption|]. split; [assumption|].
  rewrite Hinit, init_tail. cbv beta zeta.
  destruct (Z.eqb_spec v 0) as [|_]; [contradiction|].
  destruct (Z.geb_spec v minimum) as [_|]; [reflexivity|lia].
Qed.

(** An argument whose upper-cased string form is no key of
    [tables.error_level] ends the constructor at its first check, whatever
    the content, the version and the mode. *)
Lemma invalid_error_level_first (content error : pyval)
  (version : option Z) (mode : option pystr) (e : exn) :
  getitem pyval_eqb tables.error_level (PStr (str_upper (str error)))
    = Raise e ->
  QRCode content error version mode = Raise InvalidErrorLevel.
Proof.
  intros Herr. unfold QRCode. rewrite init_run, Herr. reflexivity.
Qed.

(** The letters, in either case, and the percentage strings are accepted. *)
Lemma error_level_aliases (alias : string) (level : ErrorLevel) :
  In (alias, level)
     [ ("L", L); ("l", L); ("7%", L); ("M", M); ("m", M); ("15%", M);
       ("Q", Q); ("q", Q); ("25%", Q); ("H", H); ("h", H); ("30%", H)
     ]%string ->
  getitem pyval_eqb tables.error_level
    (PStr (str_upper (str (PStr (lit alias))))) = Ok level.
Proof.
  intros Hin. cbn [str].
  repeat (destruct Hin as [[= <- <-]|Hin];
          [rewrite str_upper_ascii by reflexivity; reflexivity|]).
  destruct Hin.
Qed.

Lemma lowercase_literal (mode : string) :
  forallb is_ascii (lit mode) = true ->
  map ascii_lower (lit mode) = lit mode ->
  lit mode <> [] ->
  lowercase_mode (Some (lit mode)) = Some (lit mode).
Proof.
  intros Hascii Hlower Hne. unfold lowercase_mode.
  destruct (lit mode) as [|c rest] eqn:E; [contradiction|].
  cbn [truthy_str option_map]. f_equal. rewrite <- Hlower at 2.
  apply str_lower_ascii, Hascii.
Qed.

(** A constructor that returns an object has set its [code]. *)
Lemma constructed_has_code (content error : pyval) (version : option Z)
  (mode : option pystr) (self : Self) :
  QRCode content error version mode = Ok self ->
  exists code, self_code self = Some code.
Proof.
  unfold QRCode. rewrite init_run.
  destruct (getitem pyval_eqb tables.error_level _) as [level|];
    [|discriminate].
  cbv zeta. destruct (check_mode _ _ _) as [[[]|ex] s] eqn:Hmode;
    [|discriminate].
  apply check_mode_ok in Hmode as (m & n & _ & _ & ->). fields.
  destruct (fst (_pick_best_fit _)) as [best|ex]; [|discriminate].
  rewrite init_tail. cbv beta zeta.
  assert (Hbuilt : forall v,
             match
               match QRCodeBuilder content v m level with
               | Ok b =>
                   (Ok tt,
                    mkSelf (Some (str content)) (Some level) (Some m) (Some n)
                           (Some v) (Some b) (Some (builder_code b)))
               | Raise ex =>
                   (Raise ex,
                    mkSelf (Some (str content)) (Some level) (Some m) (Some n)
                           (Some v) None None)
               end
             with
             | (Ok _, self0) => Ok self0
             | (Raise e, _) => Raise e
             end = Ok self ->
             exists code, self_code self = Some code).
  { intros v. destruct (QRCodeBuilder content v m level) as [b|];
      [|discriminate].
    intros [= <-]. exists (builder_code b). reflexivity. }
  destruct version as [v|]; [|apply Hbuilt].
  destruct (v =? 0); [apply Hbuilt|].
  destruct (v >=? best); [apply Hbuilt|discriminate].
Qed.

(** A version the selection answers is the smallest of 1 to 40 whose
    capacity reaches the character count of the data. *)
Lemma pick_ok_smallest (s s' : Self) (d : pystr) (e : ErrorLevel) (n v : Z) :
  self_data s = Some d -> self_error s = Some e -> self_mode_num s = Some n ->
  _pick_best_fit s = (Ok v, s') ->
  1 <= v <= 40 /\ data_capacity v e n >= len d /\
  forall u, 1 <= u < v -> data_capacity u e n < len d.
Proof.
  intros Hd He Hn Hpick.
  assert (Hsize : payload_length n d = Ok (len d)).
  { unfold payload_length, encode_ascii.
    destruct (Z.eqb_spec n 4) as [->|_]; [|reflexivity].
    destruct (forallb is_ascii d) eqn:Hascii; [reflexivity|].
    unfold _pick_best_fit in Hpick. rewrite (range_cons 1 41) in Hpick by lia.
    rewrite (pick_from_not_ascii _ _ s d e Hd He Hn Hascii) in Hpick.
    discriminate. }
  rewrite (pick_run s d e n (len d) Hd He Hn Hsize) in Hpick.
  pose proof (find_range (fun v => data_capacity v e n >=? len d) 40 1 41
                eq_refl) as Hfind.
  destruct (find _ (range 1 41)) as [v'|]; [|discriminate].
  injection Hpick as -> _. destruct Hfind as (Hv & Hfits & Hmin).
  split; [lia|]. split; [lia|].
  intros u Hu. specialize (Hmin u Hu). cbv beta in Hmin. lia.
Qed.

(** What the version selection can end with, on an object whose data,
    error level and mode indicator are set. *)
Lemma pick_outcome (s : Self) (d : pystr) (e : ErrorLevel) (n : Z) :
  self_data s = Some d -> self_error s = Some e -> self_mode_num s = Some n ->
  fst (_pick_best_fit s) = Raise UnicodeEncodeError \/
  fst (_pick_best_fit s) = Raise ContentTooLarge \/
  exists v, fst (_pick_best_fit s) = Ok v.
Proof.
  intros Hd He Hn.
  destruct (payload_length n d) as [size|ex] eqn:Hsize.
  - rewrite (pick_run s d e n size Hd He Hn Hsize). cbn [fst].
    destruct (find _ (range 1 41)) as [v|]; [right; right; exists v|right; left];
      reflexivity.
  - left. unfold payload_length, encode_ascii in Hsize.
    destruct (Z.eqb_spec n 4) as [->|]; [|discriminate].
    destruct (forallb is_ascii d) eqn:Hascii; [discriminate|].
    unfold _pick_best_fit. rewrite (range_cons 1 41) by lia.
    rewrite (pick_from_not_ascii _ _ s d e Hd He Hn Hascii). reflexivity.
Qed.

(** A mode check that raises nothing is an acceptance. *)
Lemma mode_accepted_intro (content error : pyval) (version : option Z)
  (mode : option pystr) (level : ErrorLevel) (m : pystr) (n : Z) :
  getitem pyval_eqb tables.error_level (PStr (str_upper (str error)))
    = Ok level ->
  check_mode (if alphanumeric_only (str content)
              then lit "alphanumeric" else lit "binary")
    (lowercase_mode mode)
    (mkSelf (Some (str content)) (Some level) None None None None None)
    = (Ok tt, mkSelf (Some (str content)) (Some level) (Some m) (Some n)
                     None None None) ->
  mode_accepted content error version mode level m n.
Proof.
  intros Herr Hmode. unfold mode_accepted. cbv zeta.
  split; [|split; [|split]].
  - intros guessed Hguess. rewrite detected_type_run in Hguess.
    injection Hguess as <-. exact Hmode.
  - unfold __init__. rewrite bind_run.
    cbn [set_data new self_error self_mode self_mode_num self_version
         self_builder self_code].
    rewrite bind_run, check_error_level_run, Herr. fields.
    rewrite bind_run, (detect_run _ (str content)) by reflexivity.
    fold (alphanumeric_only (str content)). cbv zeta.
    rewrite bind_run, Hmode. reflexivity.
  - intros Hbuilder why. unfold QRCode. rewrite init_run, Herr. cbv zeta.
    rewrite Hmode. fields.
    destruct (pick_outcome
                (mkSelf (Some (str content)) (Some level) (Some m) (Some n)
                        None None None) (str content) level n eq_refl eq_refl
                eq_refl) as [Hpick|[Hpick|(best & Hpick)]];
      rewrite Hpick; [discriminate..|].
    rewrite init_tail. cbv beta zeta.
    assert (Hbuilt : forall v,
               match
                 match QRCodeBuilder content v m level with
                 | Ok b =>
                     (Ok tt,
                      mkSelf (Some (str content)) (Some level) (Some m)
                             (Some n) (Some v) (Some b)
                             (Some (builder_code b)))
                 | Raise ex =>
                     (Raise ex,
                      mkSelf (Some (str content)) (Some level) (Some m)
                             (Some n) (Some v) None None)
                 end
               with
               | (Ok _, self0) => Ok self0
               | (Raise e, _) => Raise e
               end <> Raise (ModeMismatch why)).
    { intros v. specialize (Hbuilder v why).
      destruct (QRCodeBuilder content v m level); congruence. }
    destruct version as [v|]; [|apply Hbuilt].
    destruct (v =? 0); [apply Hbuilt|].
    destruct (v >=? best); [apply Hbuilt|discriminate].
  - apply (init_mode_stored content error version mode level m n Herr Hmode).
Qed.

(** ** The claims *)

(** C1 (the code departs from the claim).  The claim: content parseable as
    a non-negative integer is detected as 'numeric', and
    [QRCode(123456789012345)] has mode 'numeric'.  The code: the content
    [123456789012345] has the string form "123456789012345", which [int]
    parses, and yet its detected type is 'alphanumeric' and so is the mode
    of the object the constructor leaves. *)
Theorem detect_content_type_integer :
  str (PInt 123456789012345) = lit "123456789012345" /\
  int (PStr (str (PInt 123456789012345))) = Ok 123456789012345 /\
  detected_type (PInt 123456789012345) = Ok (lit "alphanumeric") /\
  self_mode (snd (__init__ (PInt 123456789012345) (PStr (lit "H")) None None
                    new))
    = Some (lit "alphanumeric").
Proof.
  assert (Halnum : alphanumeric_only (str (PInt 123456789012345)) = true).
  { unfold alphanumeric_only. rewrite str_upper_ascii by reflexivity.
    reflexivity. }
  split; [reflexivity|]. split; [reflexivity|]. split.
  - rewrite detected_type_run, Halnum. reflexivity.
  - apply (init_mode_stored _ _ None None H (lit "alphanumeric") 2).
    + apply error_level_H.
    + rewrite Halnum. apply check_mode_guessed; reflexivity.
Qed.


(** C3.  With a valid error level: content whose detected type is not
    'numeric' and the explicit mode 'numeric' (in any case of letters) make
    the constructor fail with a mode mismatch; content whose detected type
    is 'binary' and an explicit mode other than binary (numeric,
    alphanumeric or kanji) make it fail with a mode mismatch; the explicit
    mode 'binary' is accepted for every content: the mode check raises
    nothing and stores it, the constructor goes on to the version
    selection, the version check and the builder, no mode mismatch comes
    but from the builder, and 'binary' is the mode of the object; and
    [QRCode("Hi", mode='numeric')] raises the mode mismatch. *)
Theorem mode_check :
  (forall content error version mode level,
      getitem pyval_eqb tables.error_level (PStr (str_upper (str error)))
        = Ok level ->
      detected_type content <> Ok (lit "numeric") ->
      lowercase_mode mode = Some (lit "numeric") ->
      exists why,
        QRCode content error version mode = Raise (ModeMismatch why)) /\
  (forall content error version mode level m,
      getitem pyval_eqb tables.error_level (PStr (str_upper (str error)))
        = Ok level ->
      detected_type content = Ok (lit "binary") ->
      lowercase_mode mode = Some m ->
      In m [lit "numeric"; lit "alphanumeric"; lit "kanji"] ->
      exists why,
        QRCode content error version mode = Raise (ModeMismatch why)) /\
  (forall content error version mode level,
      getitem pyval_eqb tables.error_level (PStr (str_upper (str error)))
        = Ok level ->
      lowercase_mode mode = Some (lit "binary") ->
      mode_accepted content error version mode level (lit "binary") 4) /\
  QRCode (PStr (lit "Hi")) (PStr (lit "H")) None (Some (lit "numeric"))
    = Raise (ModeMismatch not_numeric).
Proof.
  split; [|split; [|split]].
  - intros content error version mode level Herr Hguess Hmode.
    rewrite detected_type_run in Hguess.
    unfold QRCode. rewrite init_run, Herr. cbv zeta. rewrite Hmode.
    rewrite (check_mode_requested _ (lit "numeric") 1 _ eq_refl modes_numeric).
    destruct (alphanumeric_only (str content)).
    + exists not_numeric. reflexivity.
    + exists (only_binary (lit "numeric")). reflexivity.
  - intros content error version mode level m Herr Hguess Hmode Hm.
    rewrite detected_type_run in Hguess.
    unfold QRCode. rewrite init_run, Herr. cbv zeta. rewrite Hmode.
    destruct (alphanumeric_only (str content)); [discriminate|].
    exists (only_binary m).
    destruct Hm as [<-|[<-|[<-|[]]]].
    + rewrite (check_mode_requested _ (lit "numeric") 1 _ eq_refl modes_numeric).
      reflexivity.
    + rewrite (check_mode_requested _ (lit "alphanumeric") 2 _ eq_refl modes_alphanumeric).
      reflexivity.
    + rewrite (check_mode_requested _ (lit "kanji") 8 _ eq_refl modes_kanji).
      reflexivity.
  - intros content error version mode level Herr Hmode.
    apply (mode_accepted_intro _ _ _ _ level _ _ Herr).
    rewrite Hmode.
    rewrite (check_mode_requested _ (lit "binary") 4 _ eq_refl modes_binary).
    destruct (alphanumeric_only (str content)); reflexivity.
  - assert (Hmode : lowercase_mode (Some (lit "numeric"))
                    = Some (lit "numeric")).
    { unfold lowercase_mode. cbn [truthy_str lit map list_ascii_of_string
        option_map]. f_equal. apply str_lower_ascii. reflexivity. }
    assert (Halnum : alphanumeric_only (str (PStr (lit "Hi"))) = true).
    { unfold alphanumeric_only. rewrite str_upper_ascii by reflexivity.
      reflexivity. }
    unfold QRCode. rewrite init_run. cbn [str]. rewrite error_level_H.
    cbv zeta. rewrite Hmode. cbn [str] in Halnum. rewrite Halnum.
    rewrite (check_mode_requested _ (lit "numeric") 1 _ eq_refl modes_numeric).
    reflexivity.
Qed.

(** C4 (amended).  An explicit mode 'kanji' makes the constructor fail with
    the mode mismatch when the detected type of the content is 'binary';
    when the constructor computes a minimum version (so the content is not
    detected as binary and fits a version) and the caller gives no version,
    or 0, or one at least the minimum, it fails with the unimplemented-mode
    error, which the builder raises.  [QRCode("abc", mode='kanji')] raises
    the unimplemented-mode error as soon as some version holds three kanji
    mode characters at level H. *)
Theorem kanji_mode :
  (forall content error version mode level,
      getitem pyval_eqb tables.error_level (PStr (str_upper (str error)))
        = Ok level ->
      lowercase_mode mode = Some (lit "kanji") ->
      detected_type content = Ok (lit "binary") ->
      QRCode content error version mode
        = Raise (ModeMismatch (only_binary (lit "kanji")))) /\
  (forall content error version mode minimum,
      lowercase_mode mode = Some (lit "kanji") ->
      computed_minimum content error mode = Some minimum ->
      match version with
      | Some v => v = 0 \/ v >= minimum
      | None => True
      end ->
      QRCode content error version mode = Raise UnimplementedMode) /\
  ((exists v, 1 <= v <= 40 /\ data_capacity v H 8 >= 3) ->
   QRCode (PStr (lit "abc")) (PStr (lit "H")) None (Some (lit "kanji"))
     = Raise UnimplementedMode).
Proof.
  split; [|split].
  - intros content error version mode level Herr Hmode Hguess.
    rewrite detected_type_run in Hguess.
    unfold QRCode. rewrite init_run, Herr. cbv zeta. rewrite Hmode.
    destruct (alphanumeric_only (str content)); [discriminate|].
    rewrite (check_mode_requested _ (lit "kanji") 8 _ eq_refl modes_kanji).
    reflexivity.
  - intros content error version mode minimum Hmode Hmin Hversion.
    apply computed_minimum_inv in Hmin
      as (level & m & n & _ & _ & Hm & _ & Hinit).
    rewrite Hmode in Hm. cbn [truthy_str lit map list_ascii_of_string] in Hm.
    injection Hm as <-.
    unfold QRCode. rewrite Hinit, init_tail. cbv beta zeta.
    unfold QRCodeBuilder. rewrite pystr_eqb_refl.
    destruct version as [v|]; [|reflexivity].
    destruct (Z.eqb_spec v 0) as [|Hv]; [reflexivity|].
    destruct (Z.geb_spec v minimum) as [_|]; [reflexivity|lia].
  - intros (v & Hv & Hfits).
    assert (Halnum : alphanumeric_only (lit "abc") = true).
    { unfold alphanumeric_only. rewrite str_upper_ascii by reflexivity.
      reflexivity. }
    unfold QRCode. rewrite init_run. cbn [str]. rewrite error_level_H.
    cbv zeta. rewrite Halnum.
    rewrite (lowercase_literal "kanji") by (reflexivity || discriminate).
    rewrite (check_mode_requested _ (lit "kanji") 8 _ eq_refl modes_kanji).
    change (pystr_eqb (lit "alphanumeric") (lit "binary")) with false.
    cbn [andb negb Z.eqb Pos.eqb]. fields.
    rewrite (pick_run _ (lit "abc") H 8 3) by reflexivity. fields.
    pose proof (find_range (fun v => data_capacity v H 8 >=? 3) 40 1 41
                  eq_refl) as Hfind.
    destruct (find _ (range 1 41)) as [best|].
    + rewrite init_tail. cbv beta zeta. unfold QRCodeBuilder.
      rewrite pystr_eqb_refl. reflexivity.
    + specialize (Hfind v ltac:(lia)). cbv beta in Hfind. lia.
Qed.

(** C5 (amended).  For every construction where the caller gives a version
    other than 0: a version at least the computed minimum becomes the
    version of the object, with which the builder is called; a version
    below the computed minimum makes the constructor fail with the
    user-version-too-small error. *)
Theorem user_version (content error : pyval) (mode : option pystr)
  (v minimum : Z) :
  v <> 0 ->
  computed_minimum content error mode = Some minimum ->
  (v >= minimum ->
   self_version (snd (__init__ content error (Some v) mode new)) = Some v /\
   exists level m n,
     getitem pyval_eqb tables.error_level (PStr (str_upper (str error)))
       = Ok level /\
     (if truthy_str (lowercase_mode mode) then lowercase_mode mode = Some m
      else detected_type content = Ok m) /\
     QRCode content error (Some v) mode =
     match QRCodeBuilder content v m level with
     | Ok b =>
         Ok (mkSelf (Some (str content)) (Some level) (Some m) (Some n)
                    (Some v) (Some b) (Some (builder_code b)))
     | Raise ex => Raise ex
     end) /\
  (v < minimum ->
   QRCode content error (Some v) mode = Raise (UserVersionTooSmall v minimum)).
Proof.
  intros Hv Hmin. split.
  - intros Hge.
    destruct (init_accepts_version content error mode v minimum Hmin Hv Hge)
      as (level & m & n & Herr & Hm & Hinit).
    unfold QRCode. rewrite Hinit. split.
    + destruct (QRCodeBuilder content v m level); reflexivity.
    + exists level, m, n. split; [assumption|]. split; [assumption|].
      destruct (QRCodeBuilder content v m level); reflexivity.
  - intros Hlt. apply computed_minimum_inv in Hmin
      as (level & m & n & _ & _ & _ & _ & Hinit).
    unfold QRCode. rewrite Hinit, init_tail. cbv beta zeta.
    destruct (Z.eqb_spec v 0) as [|_]; [contradiction|].
    destruct (Z.geb_spec v minimum) as [|_]; [lia|reflexivity].
Qed.

(** C6 (the code departs from the claim).  The claim: the percentages 7,
    15, 25 and 30 are accepted aliases of the error level.  The code: each
    of them is a key of [tables.error_level], and yet the constructor, which
    looks up the upper-cased string form of the argument, raises the
    invalid-error-level error for it, whatever the other arguments. *)
Theorem error_level_percentage (content : pyval) (version : option Z)
  (mode : option pystr) (percentage : Z) :
  In percentage [7; 15; 25; 30] ->
  (exists level,
      getitem pyval_eqb tables.error_level (PInt percentage) = Ok level) /\
  QRCode content (PInt percentage) version mode = Raise InvalidErrorLevel.
Proof.
  intros Hin. split.
  - destruct Hin as [<-|[<-|[<-|[<-|[]]]]]; eexists; reflexivity.
  - unfold QRCode. rewrite init_run.
    assert (Hkey : getitem pyval_eqb tables.error_level
                     (PStr (str_upper (str (PInt percentage))))
                   = Raise KeyError).
    { destruct Hin as [<-|[<-|[<-|[<-|[]]]]];
        rewrite str_upper_ascii by reflexivity; reflexivity. }
    rewrite Hkey. reflexivity.
Qed.

(** C7 (the code departs from the claim).  The claim: [text()] returns the
    rows of the matrix as a string of 1 and 0.  The code: for every object
    the constructor returns, whose [code] the builder renders as the string
    [builder._text code], the method evaluates to [None], which is no
    string, and leaves the object as it was. *)
Theorem text_returns_none (content error : pyval) (version : option Z)
  (mode : option pystr) (self : Self) :
  QRCode content error version mode = Ok self ->
  exists code,
    self_code self = Some code /\
    text self = (Ok PNone, self) /\
    PNone <> PStr (builder._text code).
Proof.
  intros Hnew. apply constructed_has_code in Hnew as (code & Hcode).
  exists code. split; [assumption|]. split; [|discriminate].
  unfold text. run. rewrite Hcode. reflexivity.
Qed.

(** C8.  For the empty string, whatever valid error level is given: the
    detected content type is 'alphanumeric'; the version selection answers
    version 1 (the capacity of version 1 being no negative number); and the
    constructor, given no mode and no version, raises nothing of its own:
    it calls the builder for version 1 and mode 'alphanumeric', and returns
    the object as soon as the pipeline of the builder yields a matrix. *)
Theorem empty_content (error : pyval) (level : ErrorLevel) :
  getitem pyval_eqb tables.error_level (PStr (str_upper (str error)))
    = Ok level ->
  0 <= data_capacity 1 level 2 ->
  detected_type (PStr []) = Ok (lit "alphanumeric") /\
  computed_minimum (PStr []) error None = Some 1 /\
  forall code,
    build (PStr []) 1 (lit "alphanumeric") level = Ok code ->
    QRCode (PStr []) error None None =
    Ok (mkSelf (Some []) (Some level) (Some (lit "alphanumeric")) (Some 2)
               (Some 1) (Some (mkBuilder code)) (Some code)).
Proof.
  intros Herr Hcapacity.
  assert (Halnum : alphanumeric_only [] = true).
  { unfold alphanumeric_only. rewrite str_upper_ascii by reflexivity.
    reflexivity. }
  assert (Hinit : __init__ (PStr []) error None None new =
                  (check_version None ;; build_code (PStr []))
                    (mkSelf (Some []) (Some level) (Some (lit "alphanumeric"))
                            (Some 2) (Some 1) None None)).
  { rewrite init_run, Herr. cbn [str]. cbv zeta. rewrite Halnum.
    rewrite (check_mode_guessed _ None 2) by reflexivity. fields.
    rewrite (pick_run _ [] level 2 0) by reflexivity. fields.
    rewrite (range_cons 1 41) by lia. cbn [find].
    destruct (Z.geb_spec (data_capacity 1 level 2) 0) as [_|]; [|lia].
    reflexivity. }
  split; [|split].
  - rewrite detected_type_run. cbn [str]. rewrite Halnum. reflexivity.
  - unfold computed_minimum. rewrite Hinit, init_tail. cbv beta zeta.
    destruct (QRCodeBuilder _ _ _ _); reflexivity.
  - intros code Hcode. unfold QRCode. rewrite Hinit, init_tail.
    cbv beta zeta. unfold QRCodeBuilder.
    change (pystr_eqb (lit "alphanumeric") (lit "kanji")) with false.
    cbv iota. rewrite Hcode. reflexivity.
Qed.

(** C9.  For every construction in binary mode (the mode given is 'binary',
    or none is given and the detected type is 'binary') with a valid error
    level, content with a character outside ASCII makes the constructor
    raise [UnicodeEncodeError], which the version selection meets at the
    ASCII encoding of the content. *)
Theorem binary_non_ascii (content error : pyval) (version : option Z)
  (mode : option pystr) (level : ErrorLevel) (c : N) :
  getitem pyval_eqb tables.error_level (PStr (str_upper (str error)))
    = Ok level ->
  In c (str content) -> is_ascii c = false ->
  lowercase_mode mode = Some (lit "binary") \/
  (truthy_str (lowercase_mode mode) = false /\
   detected_type content = Ok (lit "binary")) ->
  encode_ascii (str content) = Raise UnicodeEncodeError /\
  QRCode content error version mode = Raise UnicodeEncodeError.
Proof.
  intros Herr Hin Hc Hbinary.
  assert (Hascii : forallb is_ascii (str content) = false).
  { destruct (forallb is_ascii (str content)) eqn:E; [|reflexivity].
    rewrite forallb_forall in E. rewrite (E c Hin) in Hc. discriminate. }
  split; [unfold encode_ascii; rewrite Hascii; reflexivity|].
  assert (Hmode : check_mode
                    (if alphanumeric_only (str content)
                     then lit "alphanumeric" else lit "binary")
                    (lowercase_mode mode)
                    (mkSelf (Some (str content)) (Some level) None None None
                            None None)
                  = (Ok tt, mkSelf (Some (str content)) (Some level)
                                   (Some (lit "binary")) (Some 4) None None
                                   None)).
  { destruct Hbinary as [Hmode|[Hfalsy Hguess]].
    - rewrite Hmode.
      rewrite (check_mode_requested _ (lit "binary") 4 _ eq_refl modes_binary).
      destruct (alphanumeric_only (str content)); reflexivity.
    - rewrite detected_type_run in Hguess.
      destruct (alphanumeric_only (str content)); [discriminate|].
      rewrite (check_mode_guessed _ _ 4 _ Hfalsy modes_binary). reflexivity. }
  unfold QRCode. rewrite init_run, Herr. cbv zeta. rewrite Hmode.
  unfold _pick_best_fit. rewrite (range_cons 1 41) by lia.
  rewrite (pick_from_not_ascii _ _ _ (str content) level) by reflexivity
    || assumption.
  reflexivity.
Qed.

(** C10.  The constructor has no upper bound on the version the caller
    gives: every integer at least the computed minimum, those above 40
    among them, becomes the version of the object, with which the builder
    is called, and the outcome of the constructor is the outcome of the
    builder; and with the version 0 the constructor runs as with no version
    at all. *)
Theorem version_unbounded (content error : pyval) (mode : option pystr)
  (minimum : Z) :
  computed_minimum content error mode = Some minimum ->
  (forall v, v >= minimum ->
     self_version (snd (__init__ content error (Some v) mode new)) = Some v /\
     exists level m,
       getitem pyval_eqb tables.error_level (PStr (str_upper (str error)))
         = Ok level /\
       (if truthy_str (lowercase_mode mode) then lowercase_mode mode = Some m
        else detected_type content = Ok m) /\
       fst (__init__ content error (Some v) mode new) =
       match QRCodeBuilder content v m level with
       | Ok _ => Ok tt
       | Raise ex => Raise ex
       end) /\
  (forall v, 40 < v ->
     self_version (snd (__init__ content error (Some v) mode new)) = Some v) /\
  (forall self,
     __init__ content error (Some 0) mode self
     = __init__ content error None mode self).
Proof.
  intros Hmin. pose proof (minimum_in_range _ _ _ _ Hmin) as Hrange.
  assert (Hstored : forall v, v >= minimum ->
            self_version (snd (__init__ content error (Some v) mode new))
              = Some v /\
            exists level m,
              getitem pyval_eqb tables.error_level
                (PStr (str_upper (str error))) = Ok level /\
              (if truthy_str (lowercase_mode mode)
               then lowercase_mode mode = Some m
               else detected_type content = Ok m) /\
              fst (__init__ content error (Some v) mode new) =
              match QRCodeBuilder content v m level with
              | Ok _ => Ok tt
              | Raise ex => Raise ex
              end).
  { intros v Hge.
    destruct (init_accepts_version content error mode v minimum Hmin
                ltac:(lia) Hge) as (level & m & n & Herr & Hm & Hinit).
    rewrite Hinit. split.
    - destruct (QRCodeBuilder content v m level); reflexivity.
    - exists level, m. split; [assumption|]. split; [assumption|].
      destruct (QRCodeBuilder content v m level); reflexivity. }
  split; [exact Hstored|]. split.
  - intros v Hv. apply Hstored. lia.
  - intros self. reflexivity.
Qed.

(** ** Further properties of the constructor and of the methods *)

Lemma pystr_eqb_neq_false (s t : pystr) : s <> t -> pystr_eqb s t = false.
Proof.
  intros Hne. destruct (pystr_eqb s t) eqn:E; [|reflexivity].
  apply pystr_eqb_eq in E. contradiction.
Qed.

(** The mode the mode check stores: never 'numeric', the detection never
    answering it, and 'binary' whenever the detection answers 'binary'. *)
Lemma check_mode_ok_mode (guessed : pystr) (mode : option pystr)
  (s s' : Self) (m : pystr) :
  check_mode guessed mode s = (Ok tt, s') ->
  guessed <> lit "numeric" ->
  self_mode s' = Some m ->
  m <> lit "numeric" /\ (guessed = lit "binary" -> m = lit "binary").
Proof.
  intros Hrun Hguess Hmode.
  destruct (truthy_str mode) eqn:Htruthy.
  - destruct mode as [mode|]; [|discriminate].
    destruct (getitem pystr_eqb tables.modes mode) as [n|e] eqn:Hn.
    + rewrite (check_mode_requested guessed mode n s Htruthy Hn) in Hrun.
      destruct (pystr_eqb guessed (lit "binary") && negb (n =? 4)) eqn:Hb;
        [discriminate|].
      destruct ((n =? 1) && negb (pystr_eqb guessed (lit "numeric"))) eqn:Hnum;
        [discriminate|].
      injection Hrun as <-. cbn [self_mode] in Hmode. injection Hmode as <-.
      rewrite (pystr_eqb_neq_false guessed (lit "numeric") Hguess) in Hnum.
      cbn [negb] in Hnum. rewrite andb_true_r in Hnum.
      apply Z.eqb_neq in Hnum.
      apply modes_inv in Hn as Hkey. split.
      * intros ->. destruct Hkey as [[_ ->]|[[E _]|[[E _]|[E _]]]];
          [contradiction|discriminate E..].
      * intros ->. rewrite pystr_eqb_refl in Hb. cbn [andb] in Hb.
        apply negb_false_iff, Z.eqb_eq in Hb. subst n.
        destruct Hkey as [[_ E]|[[_ E]|[[-> _]|[_ E]]]];
          [discriminate E..|reflexivity|discriminate E].
    + rewrite (check_mode_unknown guessed mode e s Htruthy Hn) in Hrun.
      discriminate.
  - apply check_mode_ok in Hrun as (m' & n & _ & Hm' & ->).
    rewrite Htruthy in Hm'. subst m'. cbn [self_mode] in Hmode.
    injection Hmode as <-. split; [assumption|tauto].
Qed.

(** *** Content type detection on ASCII data *)

Lemma passes_alphanumeric_test_table :
  forallb (fun k =>
             Bool.eqb (contains (keys tables.ascii_codes)
                         (ascii_upper (N.of_nat k)))
                      (passes_alphanumeric_test (N.of_nat k)))
          (seq 0 128) = true.
Proof. vm_compute. reflexivity. Qed.

Lemma passes_alphanumeric_test_upper (c : N) :
  is_ascii c = true ->
  contains (keys tables.ascii_codes) (ascii_upper c)
  = passes_alphanumeric_test c.
Proof.
  intros Hc. unfold is_ascii in Hc. apply N.ltb_lt in Hc.
  pose proof passes_alphanumeric_test_table as Htable.
  rewrite forallb_forall in Htable.
  specialize (Htable (N.to_nat c)).
  rewrite N2Nat.id in Htable. apply eqb_prop, Htable.
  apply in_seq. lia.
Qed.

(** X1.  For data of ASCII characters the detected content type is
    'alphanumeric' when every character is a digit, a letter in either
    case, the space or one of [$ % * + - . / :], and 'binary' otherwise; the
    object is left as it was. *)
Theorem detect_ascii_data (self : Self) (data : pystr) :
  self_data self = Some data ->
  forallb is_ascii data = true ->
  _detect_content_type self =
  (Ok (if forallb passes_alphanumeric_test data
       then lit "alphanumeric" else lit "binary"), self).
Proof.
  intros Hdata Hascii. rewrite (detect_run self data Hdata).
  rewrite str_upper_ascii by assumption.
  replace (forallb (contains (keys tables.ascii_codes)) (map ascii_upper data))
    with (forallb passes_alphanumeric_test data); [reflexivity|].
  clear Hdata. induction data as [|c data IH]; [reflexivity|].
  cbn [forallb map] in *. apply andb_true_iff in Hascii as (Hc & Hrest).
  rewrite (passes_alphanumeric_test_upper c Hc). f_equal.
  apply IH, Hrest.
Qed.

(** *** The error level and the mode arguments *)

(** X2.  An error argument whose upper-cased string form is no key of
    [tables.error_level] ends the constructor at its first check, whatever
    the content, the version and the mode: the exception is the
    invalid-error-level one and the object has its [data] and no other
    attribute. *)
Theorem error_level_checked_first (content error : pyval)
  (version : option Z) (mode : option pystr) (e : exn) :
  getitem pyval_eqb tables.error_level (PStr (str_upper (str error)))
    = Raise e ->
  __init__ content error version mode new =
  (Raise InvalidErrorLevel,
   mkSelf (Some (str content)) None None None None None None).
Proof. intros Herr. rewrite init_run, Herr. reflexivity. Qed.

(** X3.  The constructor is blind to the case of the letters of its error
    and mode arguments: two error strings and two mode strings of ASCII
    characters that differ in case only give the same run, on every
    object. *)
Theorem arguments_case_insensitive (content : pyval) (version : option Z)
  (error1 error2 mode1 mode2 : pystr) (self : Self) :
  forallb is_ascii error1 = true -> forallb is_ascii error2 = true ->
  forallb is_ascii mode1 = true -> forallb is_ascii mode2 = true ->
  map ascii_upper error1 = map ascii_upper error2 ->
  map ascii_lower mode1 = map ascii_lower mode2 ->
  __init__ content (PStr error1) version (Some mode1) self =
  __init__ content (PStr error2) version (Some mode2) self.
Proof.
  intros He1 He2 Hm1 Hm2 Herror Hmode.
  assert (Hlower : lowercase_mode (Some mode1) = lowercase_mode (Some mode2)).
  { unfold lowercase_mode.
    destruct mode1 as [|c1 rest1], mode2 as [|c2 rest2];
      try discriminate; [reflexivity|].
    cbn [truthy_str option_map].
    rewrite !str_lower_ascii by assumption. rewrite Hmode. reflexivity. }
  unfold __init__, check_error_level. cbn [str].
  rewrite !str_upper_ascii by assumption. rewrite Herror, Hlower.
  reflexivity.
Qed.

(** X4.  The edge cases of the mode argument: the empty string is taken as
    no mode at all; and, the error level being valid, a mode whose
    lower-cased form is no key of [tables.modes] makes the constructor end
    with [KeyError], whatever the content and the version. *)
Theorem mode_edge_cases :
  (forall content error version self,
      __init__ content error version (Some []) self =
      __init__ content error version None self) /\
  (forall content error version mode level m e,
      getitem pyval_eqb tables.error_level (PStr (str_upper (str error)))
        = Ok level ->
      lowercase_mode mode = Some m -> m <> [] ->
      getitem pystr_eqb tables.modes m = Raise e ->
      QRCode content error version mode = Raise KeyError).
Proof.
  split; [reflexivity|].
  intros content error version mode level m e Herr Hmode Hne Hkey.
  unfold QRCode. rewrite init_run, Herr. cbv zeta. rewrite Hmode.
  assert (Htruthy : truthy_str (Some m) = true)
    by (destruct m; [contradiction|reflexivity]).
  rewrite (check_mode_unknown _ m e _ Htruthy Hkey). reflexivity.
Qed.

(** *** The object the constructor returns *)

(** The detection never answers 'numeric'. *)
Lemma guessed_not_numeric (content : pyval) :
  (if alphanumeric_only (str content)
   then lit "alphanumeric" else lit "binary") <> lit "numeric".
Proof. destruct (alphanumeric_only (str content)); discriminate. Qed.

(** The first blocks of the constructor give its computed minimum. *)
Lemma computed_minimum_intro (content error : pyval) (mode : option pystr)
  (level : ErrorLevel) (m : pystr) (n best : Z) (s : Self) :
  getitem pyval_eqb tables.error_level (PStr (str_upper (str error)))
    = Ok level ->
  check_mode (if alphanumeric_only (str content)
              then lit "alphanumeric" else lit "binary")
    (lowercase_mode mode)
    (mkSelf (Some (str content)) (Some level) None None None None None)
    = (Ok tt, mkSelf (Some (str content)) (Some level) (Some m) (Some n)
                     None None None) ->
  _pick_best_fit
    (mkSelf (Some (str content)) (Some level) (Some m) (Some n)
            None None None) = (Ok best, s) ->
  computed_minimum content error mode = Some best.
Proof.
  intros Herr Hmode Hpick. unfold computed_minimum.
  rewrite init_run, Herr. cbv zeta. rewrite Hmode, Hpick. fields.
  rewrite init_tail. cbv beta zeta.
  destruct (QRCodeBuilder content best m level); reflexivity.
Qed.

(** How a constructor that returns an object went. *)
Lemma constructed_inv (content error : pyval) (version : option Z)
  (mode : option pystr) (self : Self) :
  QRCode content error version mode = Ok self ->
  exists level m n minimum b,
    getitem pyval_eqb tables.error_level (PStr (str_upper (str error)))
      = Ok level /\
    (if truthy_str (lowercase_mode mode) then lowercase_mode mode = Some m
     else detected_type content = Ok m) /\
    m <> lit "numeric" /\
    (detected_type content = Ok (lit "binary") -> m = lit "binary") /\
    getitem pystr_eqb tables.modes m = Ok n /\
    computed_minimum content error mode = Some minimum /\
    let v := match version with
             | Some u => if u =? 0 then minimum else u
             | None => minimum
             end in
    minimum <= v /\
    QRCodeBuilder content v m level = Ok b /\
    self = mkSelf (Some (str content)) (Some level) (Some m) (Some n)
                  (Some v) (Some b) (Some (builder_code b)).
Proof.
  unfold QRCode. rewrite init_run.
  destruct (getitem pyval_eqb tables.error_level _) as [level|] eqn:Herr;
    [|discriminate].
  cbv zeta. destruct (check_mode _ _ _) as [[[]|ex] s] eqn:Hmode;
    [|discriminate].
  pose proof Hmode as Hok.
  apply check_mode_ok in Hok as (m & n & Hn & Hm & ->). fields.
  pose proof (check_mode_ok_mode _ _ _ _ m Hmode (guessed_not_numeric content)
                eq_refl) as (Hnumeric & Hbinary).
  cbn [self_data self_error self_mode self_mode_num self_version
       self_builder self_code] in Hmode.
  pose proof (pick_state
                (mkSelf (Some (str content)) (Some level) (Some m) (Some n)
                        None None None)) as Hstate.
  destruct (_pick_best_fit
              (mkSelf (Some (str content)) (Some level) (Some m) (Some n)
                      None None None)) as [[best|ex] s'] eqn:Hpick;
    cbn [fst snd] in *; [|discriminate].
  pose proof (computed_minimum_intro content error mode level m n best s'
                Herr Hmode Hpick) as Hmin.
  rewrite init_tail. cbv beta zeta. intros Hnew.
  assert (Hbuilt : forall v,
             match
               match QRCodeBuilder content v m level with
               | Ok b =>
                   (Ok tt,
                    mkSelf (Some (str content)) (Some level) (Some m) (Some n)
                           (Some v) (Some b) (Some (builder_code b)))
               | Raise ex =>
                   (Raise ex,
                    mkSelf (Some (str content)) (Some level) (Some m) (Some n)
                           (Some v) None None)
               end
             with
             | (Ok _, self0) => Ok self0
             | (Raise e, _) => Raise e
             end = Ok self ->
             exists b,
               QRCodeBuilder content v m level = Ok b /\
               self = mkSelf (Some (str content)) (Some level) (Some m)
                             (Some n) (Some v) (Some b)
                             (Some (builder_code b))).
  { intros v. destruct (QRCodeBuilder content v m level) as [b|];
      [|discriminate].
    intros [= <-]. exists b. split; reflexivity. }
  assert (Hdetected : detected_type content = Ok (lit "binary") ->
                      m = lit "binary").
  { rewrite detected_type_run. intros [= Hguess]. apply Hbinary, Hguess. }
  assert (Hm' : if truthy_str (lowercase_mode mode)
                then lowercase_mode mode = Some m
                else detected_type content = Ok m).
  { rewrite detected_type_run. destruct (truthy_str _); congruence. }
  destruct version as [u|].
  - destruct (Z.eqb_spec u 0) as [->|Hu].
    + apply Hbuilt in Hnew as (b & Hb & ->).
      exists level, m, n, best, b. cbn [Z.eqb]. repeat split; auto; lia.
    + destruct (Z.geb_spec u best) as [Hge|]; [|discriminate].
      apply Hbuilt in Hnew as (b & Hb & ->).
      exists level, m, n, best, b.
      destruct (Z.eqb_spec u 0) as [|_]; [contradiction|].
      repeat split; auto; lia.
  - apply Hbuilt in Hnew as (b & Hb & ->).
    exists level, m, n, best, b. repeat split; auto; lia.
Qed.

(** X5.  Every object the constructor returns has all its attributes set:
    [data] is the string form of the content, [error] the level of the
    error argument, [mode] a key of [tables.modes] other than 'numeric'
    with [mode_num] its indicator, [version] the version the caller gave
    when it gave one other than 0 and the computed minimum otherwise,
    [builder] the object the builder returned for the content itself, that
    version, mode and level, and [code] its matrix.  The computed minimum
    is between 1 and 40, its capacity holds the data, and the version is
    never below it. *)
Theorem constructed_object (content error : pyval) (version : option Z)
  (mode : option pystr) (self : Self) :
  QRCode content error version mode = Ok self ->
  exists level m n minimum v b,
    self = mkSelf (Some (str content)) (Some level) (Some m) (Some n)
                  (Some v) (Some b) (Some (builder_code b)) /\
    getitem pyval_eqb tables.error_level (PStr (str_upper (str error)))
      = Ok level /\
    getitem pystr_eqb tables.modes m = Ok n /\
    m <> lit "numeric" /\
    QRCodeBuilder content v m level = Ok b /\
    computed_minimum content error mode = Some minimum /\
    1 <= minimum <= 40 /\
    data_capacity minimum level n >= len (str content) /\
    v = match version with
        | Some u => if u =? 0 then minimum else u
        | None => minimum
        end /\
    minimum <= v.
Proof.
  intros Hnew. apply constructed_inv in Hnew
    as (level & m & n & minimum & b & Herr & Hm & Hnumeric & _ & Hn & Hmin
        & Hv & Hb & ->).
  exists level, m, n, minimum,
    (match version with
     | Some u => if u =? 0 then minimum else u
     | None => minimum
     end), b.
  split; [reflexivity|]. split; [assumption|]. split; [assumption|].
  split; [assumption|]. split; [assumption|]. split; [assumption|].
  pose proof (minimum_in_range _ _ _ _ Hmin) as Hrange.
  split; [assumption|]. split; [|split; [reflexivity|assumption]].
  apply computed_minimum_inv in Hmin
    as (level' & m' & n' & Herr' & Hn' & Hm' & Hpick & _).
  assert (level' = level) as -> by congruence.
  assert (m' = m) as -> by (destruct (truthy_str _); congruence).
  assert (n' = n) as -> by congruence.
  eapply pick_ok_smallest; [| | |exact Hpick]; reflexivity.
Qed.

(** X6.  The mode 'numeric' is out of reach: no object the constructor
    returns has it as its mode, and asking for it (in any case of letters)
    always ends the constructor with the invalid-error-level error or with a
    mode mismatch, whatever the content. *)
Theorem numeric_mode_unreachable (content error : pyval)
  (version : option Z) (mode : option pystr) :
  (forall self,
      QRCode content error version mode = Ok self ->
      self_mode self <> Some (lit "numeric")) /\
  (lowercase_mode mode = Some (lit "numeric") ->
   QRCode content error version mode = Raise InvalidErrorLevel \/
   exists why, QRCode content error version mode = Raise (ModeMismatch why)).
Proof.
  split.
  - intros self Hnew. apply constructed_inv in Hnew
      as (level & m & n & minimum & b & _ & _ & Hnumeric & _ & _ & _ & _ & _
          & ->).
    cbn [self_mode]. congruence.
  - intros Hmode. unfold QRCode. rewrite init_run.
    destruct (getitem pyval_eqb tables.error_level _) as [level|];
      [|left; reflexivity].
    right. cbv zeta. rewrite Hmode.
    rewrite (check_mode_requested _ (lit "numeric") 1 _ eq_refl modes_numeric).
    destruct (alphanumeric_only (str content)).
    + exists not_numeric. reflexivity.
    + exists (only_binary (lit "numeric")). reflexivity.
Qed.

(** X7.  Shorter data never needs a larger version: when the selection
    answers a version for some data, it answers a version no larger for
    every data with a payload length no larger than the character count of
    the first, at the same error level and mode indicator. *)
Theorem pick_best_fit_monotone (self1 self2 : Self) (data1 data2 : pystr)
  (error : ErrorLevel) (mode_num size1 v2 : Z) :
  self_data self1 = Some data1 -> self_error self1 = Some error ->
  self_mode_num self1 = Some mode_num ->
  self_data self2 = Some data2 -> self_error self2 = Some error ->
  self_mode_num self2 = Some mode_num ->
  payload_length mode_num data1 = Ok size1 ->
  size1 <= len data2 ->
  _pick_best_fit self2 = (Ok v2, self2) ->
  exists v1, _pick_best_fit self1 = (Ok v1, self1) /\ v1 <= v2.
Proof.
  intros Hd1 He1 Hn1 Hd2 He2 Hn2 Hsize Hle Hpick.
  pose proof (pick_ok_smallest _ _ data2 error mode_num v2 Hd2 He2 Hn2 Hpick)
    as (Hv2 & Hfits & _).
  rewrite (pick_run self1 data1 error mode_num size1 Hd1 He1 Hn1 Hsize).
  pose proof (find_range (fun v => data_capacity v error mode_num >=? size1)
                40 1 41 eq_refl) as Hfind.
  destruct (find _ (range 1 41)) as [v1|].
  - exists v1. split; [reflexivity|].
    destruct Hfind as (_ & _ & Hmin).
    destruct (Z_le_gt_dec v1 v2) as [|Hgt]; [assumption|].
    specialize (Hmin v2 ltac:(lia)). cbv beta in Hmin. lia.
  - specialize (Hfind v2 ltac:(lia)). cbv beta in Hfind. lia.
Qed.

(** X8.  The version argument is looked at only once a minimum is computed:
    when the constructor computes none (the error level is invalid, the
    mode is refused or unknown, or the data fits no version), its run is
    the same for every version the caller gives. *)
Theorem version_ignored_without_minimum (content error : pyval)
  (version : option Z) (mode : option pystr) :
  computed_minimum content error mode = None ->
  __init__ content error version mode new
  = __init__ content error None mode new.
Proof.
  unfold computed_minimum. intros Hnone.
  rewrite init_run in Hnone. rewrite !init_run.
  destruct (getitem pyval_eqb tables.error_level _) as [level|];
    [|reflexivity].
  cbv zeta in *. destruct (check_mode _ _ _) as [[[]|ex] s] eqn:Hmode;
    [|reflexivity].
  apply check_mode_ok in Hmode as (m & n & _ & _ & ->).
  cbn [self_data self_error self_mode self_mode_num self_version
       self_builder self_code] in *.
  destruct (fst (_pick_best_fit _)) as [best|ex]; [|reflexivity].
  rewrite init_tail in Hnone. cbv beta zeta in Hnone.
  destruct (QRCodeBuilder content best m level); discriminate.
Qed.

(** X9.  The mode check, for a valid error level and a mode that is a key
    of [tables.modes]: content that passes the alphanumeric test is refused
    the mode 'numeric' (with the cannot-be-numeric message) and gets every
    other mode; content that fails it gets the mode 'binary' and is refused
    every other mode (with the only-binary message).  A mode it gets is
    accepted: the check raises nothing and stores the mode with its
    indicator, the constructor goes on to the blocks after the check, and
    no mode mismatch comes but from the builder. *)
Theorem mode_check_table (content error : pyval) (version : option Z)
  (mode : option pystr) (level : ErrorLevel) (m : pystr) (n : Z) :
  getitem pyval_eqb tables.error_level (PStr (str_upper (str error)))
    = Ok level ->
  lowercase_mode mode = Some m ->
  getitem pystr_eqb tables.modes m = Ok n ->
  if alphanumeric_only (str content)
  then if n =? 1
       then QRCode content error version mode
            = Raise (ModeMismatch not_numeric)
       else mode_accepted content error version mode level m n
  else if n =? 4
       then mode_accepted content error version mode level m n
       else QRCode content error version mode
            = Raise (ModeMismatch (only_binary m)).
Proof.
  intros Herr Hmode Hn.
  assert (Htruthy : truthy_str (Some m) = true).
  { apply modes_inv in Hn.
    destruct Hn as [[-> _]|[[-> _]|[[-> _]|[-> _]]]]; reflexivity. }
  pose proof (check_mode_requested
                (if alphanumeric_only (str content)
                 then lit "alphanumeric" else lit "binary") m n
                (mkSelf (Some (str content)) (Some level) None None None None
                        None) Htruthy Hn) as Hcheck.
  rewrite <- Hmode in Hcheck at 1.
  cbn [self_data self_error self_mode self_mode_num self_version
       self_builder self_code] in Hcheck.
  pose proof (mode_accepted_intro content error version mode level m n Herr)
    as Hstored.
  assert (Hrefused : forall why s,
             check_mode (if alphanumeric_only (str content)
                         then lit "alphanumeric" else lit "binary")
               (lowercase_mode mode)
               (mkSelf (Some (str content)) (Some level) None None None None
                       None) = (Raise (ModeMismatch why), s) ->
             QRCode content error version mode = Raise (ModeMismatch why)).
  { intros why s Hrun. unfold QRCode. rewrite init_run, Herr. cbv zeta.
    rewrite Hrun. reflexivity. }
  cbv zeta in *.
  destruct (alphanumeric_only (str content)).
  - change (pystr_eqb (lit "alphanumeric") (lit "binary")) with false in Hcheck.
    change (pystr_eqb (lit "alphanumeric") (lit "numeric")) with false
      in Hcheck.
    cbn [andb negb] in Hcheck. rewrite andb_true_r in Hcheck.
    destruct (n =? 1).
    + apply (Hrefused _ _ Hcheck).
    + apply Hstored, Hcheck.
  - change (pystr_eqb (lit "binary") (lit "binary")) with true in Hcheck.
    change (pystr_eqb (lit "binary") (lit "numeric")) with false in Hcheck.
    cbn [andb negb] in Hcheck.
    destruct (Z.eqb_spec n 4) as [->|Hne].
    + apply Hstored, Hcheck.
    + cbn [negb] in Hcheck. apply (Hrefused _ _ Hcheck).
Qed.

(** X10.  On every object the constructor returns, [get_png_size] reads a
    version that is set and at least 1, answers what the builder computes
    for that version and the scale, and leaves the object as it was. *)
Theorem get_png_size_constructed
  (size_of : Z -> pyval -> result pyval) (content error : pyval)
  (version : option Z) (mode : option pystr) (self : Self) (scale : pyval) :
  QRCode content error version mode = Ok self ->
  exists v,
    self_version self = Some v /\ 1 <= v /\
    get_png_size size_of scale self = (size_of v scale, self).
Proof.
  intros Hnew. apply constructed_inv in Hnew
    as (level & m & n & minimum & b & _ & _ & _ & _ & _ & Hmin & Hv & _ & ->).
  apply minimum_in_range in Hmin.
  eexists. split; [reflexivity|]. split; [lia|reflexivity].
Qed.

(** X11.  The facade decides on the string form of the content alone: two
    contents with the same string form (an integer and its numeral) have
    the same detected type and the same computed minimum, and the
    constructor ends with the same object attributes up to the version;
    the content itself only reaches the builder. *)
Theorem content_through_its_string (content1 content2 error : pyval)
  (version : option Z) (mode : option pystr) :
  str content1 = str content2 ->
  detected_type content1 = detected_type content2 /\
  computed_minimum content1 error mode = computed_minimum content2 error mode /\
  let self1 := snd (__init__ content1 error version mode new) in
  let self2 := snd (__init__ content2 error version mode new) in
  self_data self1 = self_data self2 /\ self_error self1 = self_error self2 /\
  self_mode self1 = self_mode self2 /\
  self_mode_num self1 = self_mode_num self2 /\
  self_version self1 = self_version self2.
Proof.
  intros Hstr. split; [rewrite !detected_type_run, Hstr; reflexivity|].
  unfold computed_minimum. cbv zeta. rewrite !init_run, Hstr.
  destruct (getitem pyval_eqb tables.error_level _) as [level|];
    [|repeat split].
  cbv zeta. destruct (check_mode _ _ _) as [[[]|ex] s] eqn:Hmode;
    [|repeat split].
  apply check_mode_ok in Hmode as (m & n & _ & _ & ->). fields.
  destruct (fst (_pick_best_fit _)) as [best|ex]; [|repeat split].
  rewrite !init_tail. cbv beta zeta.
  split.
  - destruct (QRCodeBuilder content1 best m level),
      (QRCodeBuilder content2 best m level); reflexivity.
  - destruct version as [v|].
    + destruct (v =? 0).
      * destruct (QRCodeBuilder content1 best m level),
          (QRCodeBuilder content2 best m level); repeat split.
      * destruct (v >=? best); [|repeat split].
        destruct (QRCodeBuilder content1 v m level),
          (QRCodeBuilder content2 v m level); repeat split.
    + destruct (QRCodeBuilder content1 best m level),
        (QRCodeBuilder content2 best m level); repeat split.
Qed.

End QRCode.

(** * The theorems at concrete inputs

    The constructor on the instances of the case mappings, the capacity
    table and the pipeline given above. *)

Local Abbreviation sample_init :=
  (__init__ upper_ascii_only lower_ascii_only sample_capacity sample_build).
Local Abbreviation sample_QRCode :=
  (QRCode upper_ascii_only lower_ascii_only sample_capacity sample_build).
Local Abbreviation sample_minimum :=
  (computed_minimum upper_ascii_only lower_ascii_only sample_capacity
     sample_build).

Local Abbreviation sample_accepted :=
  (mode_accepted upper_ascii_only lower_ascii_only sample_capacity
     sample_build).

(** The builder of the examples raises no mode mismatch. *)
Lemma sample_builder_no_mismatch (data : pyval) (version : Z) (mode : pystr)
  (level : ErrorLevel) (why : mismatch) :
  QRCodeBuilder sample_build data version mode level
  <> Raise (ModeMismatch why).
Proof.
  unfold QRCodeBuilder, sample_build.
  destruct (pystr_eqb mode (lit "kanji")); [discriminate|].
  destruct ((1 <=? version) && (version <=? 40)); discriminate.
Qed.

Lemma upper_ascii_only_agrees : agrees_on_ascii upper_ascii_only ascii_upper.
Proof. intros s _. reflexivity. Qed.

Lemma lower_ascii_only_agrees : agrees_on_ascii lower_ascii_only ascii_lower.
Proof. intros s _. reflexivity. Qed.

(** C1: [QRCode(123456789012345)]. *)
Lemma detect_content_type_integer_witness :
  agrees_on_ascii upper_ascii_only ascii_upper /\
  detected_type upper_ascii_only (PInt 123456789012345)
    = Ok (lit "alphanumeric") /\
  self_mode (snd (sample_init (PInt 123456789012345) (PStr (lit "H")) None
                    None new))
    = Some (lit "alphanumeric").
Proof.
  split; [exact upper_ascii_only_agrees|].
  exact (proj2 (proj2 (detect_content_type_integer
                         upper_ascii_only lower_ascii_only sample_capacity
                         sample_build upper_ascii_only_agrees))).
Defined.



(** C3: "Hi" asked as numeric, "a,b" asked as alphanumeric, "Hi" asked as
    binary. *)
Lemma mode_check_witness :
  agrees_on_ascii upper_ascii_only ascii_upper /\
  agrees_on_ascii lower_ascii_only ascii_lower /\
  (exists why,
      sample_QRCode (PStr (lit "Hi")) (PStr (lit "H")) None
        (Some (lit "NUMERIC")) = Raise (ModeMismatch why)) /\
  (exists why,
      sample_QRCode (PStr (lit "a,b")) (PStr (lit "H")) None
        (Some (lit "alphanumeric")) = Raise (ModeMismatch why)) /\
  sample_accepted (PStr (lit "Hi")) (PStr (lit "H")) None
    (Some (lit "binary")) H (lit "binary") 4 /\
  (forall why,
      sample_QRCode (PStr (lit "Hi")) (PStr (lit "H")) None
        (Some (lit "binary")) <> Raise (ModeMismatch why)) /\
  self_mode (snd (sample_init (PStr (lit "Hi")) (PStr (lit "H")) None
                    (Some (lit "binary")) new))
    = Some (lit "binary") /\
  sample_QRCode (PStr (lit "Hi")) (PStr (lit "H")) None (Some (lit "numeric"))
    = Raise (ModeMismatch not_numeric).
Proof.
  pose proof (mode_check upper_ascii_only lower_ascii_only sample_capacity
                sample_build upper_ascii_only_agrees lower_ascii_only_agrees)
    as (Hnumeric & Hbinary & Haccepted & Hhi).
  split; [exact upper_ascii_only_agrees|].
  split; [exact lower_ascii_only_agrees|].
  pose proof (Haccepted (PStr (lit "Hi")) (PStr (lit "H")) None
                (Some (lit "binary")) H eq_refl eq_refl) as Hhi_binary.
  split; [|split; [|split; [|split; [|split]]]].
  - apply (Hnumeric (PStr (lit "Hi")) (PStr (lit "H")) None
             (Some (lit "NUMERIC")) H); [reflexivity|discriminate|reflexivity].
  - apply (Hbinary (PStr (lit "a,b")) (PStr (lit "H")) None
             (Some (lit "alphanumeric")) H (lit "alphanumeric"));
      [reflexivity|reflexivity|reflexivity|right; left; reflexivity].
  - exact Hhi_binary.
  - destruct Hhi_binary as (_ & _ & Hno_mismatch & _).
    apply Hno_mismatch. intros v why. apply sample_builder_no_mismatch.
  - destruct Hhi_binary as (_ & _ & _ & Hstored & _). exact Hstored.
  - exact Hhi.
Defined.

(** C4: "a,b" and "abc" asked as kanji. *)
Lemma kanji_mode_witness :
  agrees_on_ascii upper_ascii_only ascii_upper /\
  agrees_on_ascii lower_ascii_only ascii_lower /\
  sample_QRCode (PStr (lit "a,b")) (PStr (lit "H")) None (Some (lit "kanji"))
    = Raise (ModeMismatch (only_binary (lit "kanji"))) /\
  sample_minimum (PStr (lit "abc")) (PStr (lit "H")) (Some (lit "Kanji"))
    = Some 1 /\
  sample_QRCode (PStr (lit "abc")) (PStr (lit "H")) (Some 7)
    (Some (lit "Kanji")) = Raise UnimplementedMode /\
  sample_capacity 1 H 8 >= 3 /\
  sample_QRCode (PStr (lit "abc")) (PStr (lit "H")) None (Some (lit "kanji"))
    = Raise UnimplementedMode.
Proof.
  pose proof (kanji_mode upper_ascii_only lower_ascii_only sample_capacity
                sample_build upper_ascii_only_agrees lower_ascii_only_agrees)
    as (Hbinary & Hbuilder & Habc).
  split; [exact upper_ascii_only_agrees|].
  split; [exact lower_ascii_only_agrees|].
  split; [|split; [|split; [|split]]].
  - apply (Hbinary (PStr (lit "a,b")) (PStr (lit "H")) None
             (Some (lit "kanji")) H); reflexivity.
  - reflexivity.
  - apply (Hbuilder (PStr (lit "abc")) (PStr (lit "H")) (Some 7)
             (Some (lit "Kanji")) 1); [reflexivity|reflexivity|].
    right. discriminate.
  - discriminate.
  - apply Habc. exists 1. split; [lia|discriminate].
Defined.

(** C4, as stated, fails for the content "a,b", whose detected type is
    'binary': the mode check raises the mode mismatch before the builder is
    called. *)
Lemma kanji_mode_counterexample :
  detected_type upper_ascii_only (PStr (lit "a,b")) = Ok (lit "binary") /\
  sample_QRCode (PStr (lit "a,b")) (PStr (lit "H")) None (Some (lit "kanji"))
    = Raise (ModeMismatch (only_binary (lit "kanji"))) /\
  sample_QRCode (PStr (lit "a,b")) (PStr (lit "H")) None (Some (lit "kanji"))
    <> Raise UnimplementedMode.
Proof. split; [reflexivity|]. split; [reflexivity|discriminate]. Defined.

(** C5: "A" with the versions 5 and -1, the computed minimum being 1. *)
Lemma user_version_witness :
  5 <> 0 /\
  sample_minimum (PStr (lit "A")) (PStr (lit "H")) None = Some 1 /\
  self_version (snd (sample_init (PStr (lit "A")) (PStr (lit "H")) (Some 5)
                       None new)) = Some 5 /\
  sample_QRCode (PStr (lit "A")) (PStr (lit "H")) (Some (-1)) None
    = Raise (UserVersionTooSmall (-1) 1).
Proof.
  split; [discriminate|]. split; [reflexivity|]. split.
  - apply (user_version upper_ascii_only lower_ascii_only sample_capacity
             sample_build (PStr (lit "A")) (PStr (lit "H")) None 5 1);
      [discriminate|reflexivity|discriminate].
  - apply (user_version upper_ascii_only lower_ascii_only sample_capacity
             sample_build (PStr (lit "A")) (PStr (lit "H")) None (-1) 1);
      [discriminate|reflexivity|reflexivity].
Defined.

(** C5, as stated, fails for the version 0: it is below the computed
    minimum 1, and the constructor returns an object, of version 1. *)
Lemma user_version_zero_counterexample :
  sample_minimum (PStr (lit "A")) (PStr (lit "H")) None = Some 1 /\
  0 < 1 /\
  exists self,
    sample_QRCode (PStr (lit "A")) (PStr (lit "H")) (Some 0) None = Ok self /\
    self_version self = Some 1.
Proof.
  split; [reflexivity|]. split; [reflexivity|].
  eexists. split; reflexivity.
Defined.

(** C6: [QRCode("A", error=7)]. *)
Lemma error_level_percentage_witness :
  agrees_on_ascii upper_ascii_only ascii_upper /\
  In 7 [7; 15; 25; 30] /\
  getitem pyval_eqb tables.error_level (PInt 7) = Ok L /\
  sample_QRCode (PStr (lit "A")) (PInt 7) None None = Raise InvalidErrorLevel.
Proof.
  split; [exact upper_ascii_only_agrees|].
  split; [left; reflexivity|]. split; [reflexivity|].
  apply (error_level_percentage upper_ascii_only lower_ascii_only
           sample_capacity sample_build upper_ascii_only_agrees
           (PStr (lit "A")) None None 7).
  left. reflexivity.
Defined.

(** C7: [QRCode("HELLO WORLD", error='Q').text()]. *)
Lemma text_returns_none_witness :
  let code := repeat (repeat 0 21%nat) 21%nat in
  let self := mkSelf (Some (lit "HELLO WORLD")) (Some Q)
                     (Some (lit "alphanumeric")) (Some 2) (Some 1)
                     (Some (mkBuilder code)) (Some code) in
  sample_QRCode (PStr (lit "HELLO WORLD")) (PStr (lit "Q")) None None
    = Ok self /\
  exists code',
    self_code self = Some code' /\ text self = (Ok PNone, self) /\
    PNone <> PStr (builder._text code').
Proof.
  split; [reflexivity|].
  apply (text_returns_none upper_ascii_only lower_ascii_only sample_capacity
           sample_build (PStr (lit "HELLO WORLD")) (PStr (lit "Q")) None None).
  reflexivity.
Defined.

(** C8: [QRCode("")] at the default level H. *)
Lemma empty_content_witness :
  agrees_on_ascii upper_ascii_only ascii_upper /\
  getitem pyval_eqb tables.error_level
    (PStr (upper_ascii_only (str (PStr (lit "H"))))) = Ok H /\
  0 <= sample_capacity 1 H 2 /\
  sample_build (PStr []) 1 (lit "alphanumeric") H
    = Ok (repeat (repeat 0 21%nat) 21%nat) /\
  sample_minimum (PStr []) (PStr (lit "H")) None = Some 1 /\
  sample_QRCode (PStr []) (PStr (lit "H")) None None
    = Ok (mkSelf (Some []) (Some H) (Some (lit "alphanumeric")) (Some 2)
                 (Some 1) (Some (mkBuilder (repeat (repeat 0 21%nat) 21%nat)))
                 (Some (repeat (repeat 0 21%nat) 21%nat))).
Proof.
  pose proof (empty_content upper_ascii_only lower_ascii_only sample_capacity
                sample_build upper_ascii_only_agrees (PStr (lit "H")) H
                eq_refl ltac:(discriminate))
    as (_ & Hminimum & Hbuilt).
  split; [exact upper_ascii_only_agrees|].
  split; [reflexivity|]. split; [discriminate|]. split; [reflexivity|].
  split; [exact Hminimum|].
  apply Hbuilt. reflexivity.
Defined.

(** C9: [QRCode("é", mode='binary')]. *)
Lemma binary_non_ascii_witness :
  In 233%N (str (PStr [233%N])) /\
  is_ascii 233 = false /\
  lowercase_mode lower_ascii_only (Some (lit "binary"))
    = Some (lit "binary") /\
  sample_QRCode (PStr [233%N]) (PStr (lit "H")) None (Some (lit "binary"))
    = Raise UnicodeEncodeError.
Proof.
  split; [left; reflexivity|]. split; [reflexivity|]. split; [reflexivity|].
  apply (binary_non_ascii upper_ascii_only lower_ascii_only sample_capacity
           sample_build (PStr [233%N]) (PStr (lit "H")) None
           (Some (lit "binary")) H 233%N);
    [reflexivity|left; reflexivity|reflexivity|left; reflexivity].
Defined.

(** C10: "A" with the version 41, the computed minimum being 1. *)
Lemma version_unbounded_witness :
  sample_minimum (PStr (lit "A")) (PStr (lit "H")) None = Some 1 /\
  self_version (snd (sample_init (PStr (lit "A")) (PStr (lit "H")) (Some 41)
                       None new)) = Some 41 /\
  sample_init (PStr (lit "A")) (PStr (lit "H")) (Some 0) None new
    = sample_init (PStr (lit "A")) (PStr (lit "H")) None None new.
Proof.
  pose proof (version_unbounded upper_ascii_only lower_ascii_only
                sample_capacity sample_build (PStr (lit "A"))
                (PStr (lit "H")) None 1 eq_refl)
    as (_ & Habove & Hzero).
  split; [reflexivity|]. split.
  - apply Habove. reflexivity.
  - apply Hzero.
Defined.

(** X1: the data "http://uca.edu". *)
Lemma detect_ascii_data_witness :
  let self := mkSelf (Some (lit "http://uca.edu")) None None None None None
                     None in
  forallb is_ascii (lit "http://uca.edu") = true /\
  _detect_content_type upper_ascii_only self
    = (Ok (lit "alphanumeric"), self).
Proof.
  split; [reflexivity|].
  apply (detect_ascii_data upper_ascii_only upper_ascii_only_agrees _
           (lit "http://uca.edu")); reflexivity.
Defined.

(** X2: [QRCode("A", error='Z', mode='nonsense')]. *)
Lemma error_level_checked_first_witness :
  getitem pyval_eqb tables.error_level
    (PStr (upper_ascii_only (str (PStr (lit "Z"))))) = Raise KeyError /\
  sample_init (PStr (lit "A")) (PStr (lit "Z")) (Some (-3))
    (Some (lit "nonsense")) new
  = (Raise InvalidErrorLevel,
     mkSelf (Some (lit "A")) None None None None None None).
Proof.
  split; [reflexivity|].
  apply (error_level_checked_first upper_ascii_only lower_ascii_only
           sample_capacity sample_build (PStr (lit "A")) (PStr (lit "Z"))
           (Some (-3)) (Some (lit "nonsense")) KeyError).
  reflexivity.
Defined.

(** X3: the errors 'q' and 'Q', the modes 'Binary' and 'BINARY'. *)
Lemma arguments_case_insensitive_witness :
  map ascii_upper (lit "q") = map ascii_upper (lit "Q") /\
  map ascii_lower (lit "Binary") = map ascii_lower (lit "BINARY") /\
  sample_init (PStr (lit "Hi")) (PStr (lit "q")) None (Some (lit "Binary")) new
  = sample_init (PStr (lit "Hi")) (PStr (lit "Q")) None (Some (lit "BINARY"))
      new.
Proof.
  split; [reflexivity|]. split; [reflexivity|].
  apply (arguments_case_insensitive upper_ascii_only lower_ascii_only
           sample_capacity sample_build upper_ascii_only_agrees
           lower_ascii_only_agrees); reflexivity.
Defined.

(** X4: the modes '' and 'byte'. *)
Lemma mode_edge_cases_witness :
  sample_init (PStr (lit "Hi")) (PStr (lit "H")) None (Some []) new
  = sample_init (PStr (lit "Hi")) (PStr (lit "H")) None None new /\
  getitem pystr_eqb tables.modes (lit "byte") = Raise KeyError /\
  sample_QRCode (PStr (lit "Hi")) (PStr (lit "H")) None (Some (lit "Byte"))
  = Raise KeyError.
Proof.
  pose proof (mode_edge_cases upper_ascii_only lower_ascii_only
                sample_capacity sample_build) as (Hempty & Hunknown).
  split; [apply Hempty|]. split; [reflexivity|].
  apply (Hunknown (PStr (lit "Hi")) (PStr (lit "H")) None
           (Some (lit "Byte")) H (lit "byte") KeyError);
    [reflexivity|reflexivity|discriminate|reflexivity].
Defined.

(** X5: [QRCode("HELLO WORLD", error='Q', version=7)]. *)
Lemma constructed_object_witness :
  let code := repeat (repeat 0 45%nat) 45%nat in
  let self := mkSelf (Some (lit "HELLO WORLD")) (Some Q)
                     (Some (lit "alphanumeric")) (Some 2) (Some 7)
                     (Some (mkBuilder code)) (Some code) in
  sample_QRCode (PStr (lit "HELLO WORLD")) (PStr (lit "Q")) (Some 7) None
    = Ok self /\
  exists level m n minimum v b,
    self = mkSelf (Some (str (PStr (lit "HELLO WORLD")))) (Some level)
                  (Some m) (Some n) (Some v) (Some b)
                  (Some (builder_code b)) /\
    getitem pyval_eqb tables.error_level
      (PStr (upper_ascii_only (str (PStr (lit "Q"))))) = Ok level /\
    getitem pystr_eqb tables.modes m = Ok n /\
    m <> lit "numeric" /\
    QRCodeBuilder sample_build (PStr (lit "HELLO WORLD")) v m level = Ok b /\
    sample_minimum (PStr (lit "HELLO WORLD")) (PStr (lit "Q")) None
      = Some minimum /\
    1 <= minimum <= 40 /\
    sample_capacity minimum level n >= len (str (PStr (lit "HELLO WORLD"))) /\
    v = (if 7 =? 0 then minimum else 7) /\
    minimum <= v.
Proof.
  split; [reflexivity|].
  apply (constructed_object upper_ascii_only lower_ascii_only sample_capacity
           sample_build (PStr (lit "HELLO WORLD")) (PStr (lit "Q")) (Some 7)
           None).
  reflexivity.
Defined.

(** X6: "123" with no mode and with the mode 'Numeric'. *)
Lemma numeric_mode_unreachable_witness :
  (exists self,
      sample_QRCode (PStr (lit "123")) (PStr (lit "H")) None None = Ok self /\
      self_mode self <> Some (lit "numeric")) /\
  lowercase_mode lower_ascii_only (Some (lit "Numeric"))
    = Some (lit "numeric") /\
  (sample_QRCode (PStr (lit "123")) (PStr (lit "H")) None
     (Some (lit "Numeric")) = Raise InvalidErrorLevel \/
   exists why,
     sample_QRCode (PStr (lit "123")) (PStr (lit "H")) None
       (Some (lit "Numeric")) = Raise (ModeMismatch why)).
Proof.
  split; [|split; [reflexivity|]].
  - eexists. split; [reflexivity|].
    apply (numeric_mode_unreachable upper_ascii_only lower_ascii_only
             sample_capacity sample_build (PStr (lit "123")) (PStr (lit "H"))
             None None).
    reflexivity.
  - apply (numeric_mode_unreachable upper_ascii_only lower_ascii_only
             sample_capacity sample_build (PStr (lit "123")) (PStr (lit "H"))
             None (Some (lit "Numeric"))).
    reflexivity.
Defined.

(** X7: "AB" and thirty times "A", alphanumeric at level Q. *)
Lemma pick_best_fit_monotone_witness :
  let self1 := mkSelf (Some (lit "AB")) (Some Q) (Some (lit "alphanumeric"))
                      (Some 2) None None None in
  let self2 := mkSelf (Some (repeat 65%N 30)) (Some Q)
                      (Some (lit "alphanumeric")) (Some 2) None None None in
  payload_length 2 (lit "AB") = Ok 2 /\
  2 <= len (repeat 65%N 30) /\
  _pick_best_fit sample_capacity self2 = (Ok 2, self2) /\
  exists v1, _pick_best_fit sample_capacity self1 = (Ok v1, self1) /\ v1 <= 2.
Proof.
  split; [reflexivity|]. split; [discriminate|]. split; [reflexivity|].
  apply (pick_best_fit_monotone sample_capacity
           (mkSelf (Some (lit "AB")) (Some Q) (Some (lit "alphanumeric"))
                   (Some 2) None None None)
           (mkSelf (Some (repeat 65%N 30)) (Some Q)
                   (Some (lit "alphanumeric")) (Some 2) None None None)
           (lit "AB") (repeat 65%N 30) Q 2 2 2); reflexivity || discriminate.
Defined.

(** X8: five hundred times "A" at level H, which fits no version, with the
    version 1000. *)
Lemma version_ignored_without_minimum_witness :
  sample_minimum (PStr (repeat 65%N 500)) (PStr (lit "H")) None = None /\
  sample_init (PStr (repeat 65%N 500)) (PStr (lit "H")) (Some 1000) None new
  = sample_init (PStr (repeat 65%N 500)) (PStr (lit "H")) None None new /\
  sample_QRCode (PStr (repeat 65%N 500)) (PStr (lit "H")) None None
  = Raise ContentTooLarge.
Proof.
  split; [reflexivity|]. split; [|reflexivity].
  apply (version_ignored_without_minimum upper_ascii_only lower_ascii_only
           sample_capacity sample_build).
  reflexivity.
Defined.

(** X9: "Hi" asked as alphanumeric. *)
Lemma mode_check_table_witness :
  getitem pyval_eqb tables.error_level
    (PStr (upper_ascii_only (str (PStr (lit "H"))))) = Ok H /\
  lowercase_mode lower_ascii_only (Some (lit "Alphanumeric"))
    = Some (lit "alphanumeric") /\
  getitem pystr_eqb tables.modes (lit "alphanumeric") = Ok 2 /\
  alphanumeric_only upper_ascii_only (str (PStr (lit "Hi"))) = true /\
  sample_accepted (PStr (lit "Hi")) (PStr (lit "H")) None
    (Some (lit "Alphanumeric")) H (lit "alphanumeric") 2 /\
  (forall why,
      sample_QRCode (PStr (lit "Hi")) (PStr (lit "H")) None
        (Some (lit "Alphanumeric")) <> Raise (ModeMismatch why)) /\
  self_mode (snd (sample_init (PStr (lit "Hi")) (PStr (lit "H")) None
                    (Some (lit "Alphanumeric")) new))
    = Some (lit "alphanumeric").
Proof.
  pose proof (mode_check_table upper_ascii_only lower_ascii_only
                sample_capacity sample_build (PStr (lit "Hi"))
                (PStr (lit "H")) None (Some (lit "Alphanumeric")) H
                (lit "alphanumeric") 2 eq_refl eq_refl eq_refl) as Haccepted.
  change (sample_accepted (PStr (lit "Hi")) (PStr (lit "H")) None
            (Some (lit "Alphanumeric")) H (lit "alphanumeric") 2)
    in Haccepted.
  split; [reflexivity|]. split; [reflexivity|]. split; [reflexivity|].
  split; [reflexivity|]. split; [exact Haccepted|].
  destruct Haccepted as (_ & _ & Hno_mismatch & Hstored & _).
  split; [|exact Hstored].
  apply Hno_mismatch. intros v why. apply sample_builder_no_mismatch.
Defined.

(** X10: [QRCode("I don't like spam!").get_png_size(5)]. *)
Lemma get_png_size_constructed_witness :
  exists self,
    sample_QRCode (PStr (lit "I don't like spam!")) (PStr (lit "H")) None None
      = Ok self /\
    exists v,
      self_version self = Some v /\ 1 <= v /\
      get_png_size sample_png_size (PInt 5) self
        = (sample_png_size v (PInt 5), self).
Proof.
  eexists. split; [reflexivity|].
  apply (get_png_size_constructed upper_ascii_only lower_ascii_only
           sample_capacity sample_build sample_png_size
           (PStr (lit "I don't like spam!")) (PStr (lit "H")) None None).
  reflexivity.
Defined.

(** X11: the integer 123 and the string "123". *)
Lemma content_through_its_string_witness :
  str (PInt 123) = str (PStr (lit "123")) /\
  sample_minimum (PInt 123) (PStr (lit "H")) None
  = sample_minimum (PStr (lit "123")) (PStr (lit "H")) None.
Proof.
  split; [reflexivity|].
  apply (content_through_its_string upper_ascii_only lower_ascii_only
           sample_capacity sample_build (PInt 123) (PStr (lit "123"))
           (PStr (lit "H")) None None).
  reflexivity.
Defined.
